(** * mlperf_prof: the instrumentation facade of [mlperf_prof/__init__.py]

    A shallow embedding of the module: the two variants of every public
    entity (the one built on the measurement engine, and the dummy one of
    the [except] branch), the module-level statements that choose between
    them, and the global [_Metrics] list that [parse_args] rebinds.

    The measurement engine ([timemory]) is an external package.  Whatever
    the module only forwards to it is kept behind the [Registry] class. *)

From Stdlib Require Import ZArith String Ascii List Bool Lia.
From stdpp Require Import base option list gmap strings.

Local Open Scope string_scope.
Local Open Scope list_scope.

(** ** Python values, exceptions and results *)

(** Exception classes.  All of them derive from [Exception], so that
    [except Exception] catches each; the exits and interrupts it lets
    through are not modelled. *)
Inductive exc_type : Type :=
  | ImportError
  | NameError
  | AttributeError
  | TypeError
  | RuntimeError
  | UserError (name : string).

(** An exception object: its class, the message it was built with and the
    frames of its traceback. *)
Record exception : Type := Exc
  { exc_class : exc_type;
    exc_msg : string;
    exc_frames : list string }.

Inductive value : Type :=
  | VNone
  | VBool (b : bool)
  | VInt (n : Z)
  | VFloat (m e : Z)  (* the float m * 2^e *)
  | VStr (s : string)
  | VList (l : list string)
  | VDict (d : list (string * string)).

(** Python's truth test, as [with] applies it to the result of [__exit__]. *)
Definition truthy (v : value) : bool :=
  match v with
  | VNone => false
  | VBool b => b
  | VInt n => negb (n =? 0)%Z
  | VFloat m _ => negb (m =? 0)%Z
  | VStr s => negb (String.eqb s "")
  | VList l => match l with [] => false | _ => true end
  | VDict d => match d with [] => false | _ => true end
  end.

(** Numeric comparison with the literal [0], as in [t.get() == 0]. *)
Definition is_zero (v : value) : bool :=
  match v with
  | VInt n => (n =? 0)%Z
  | VFloat m _ => (m =? 0)%Z
  | VBool b => negb b
  | _ => false
  end.

Inductive result (A : Type) : Type :=
  | Ok (a : A)
  | Raise (e : exception).
Arguments Ok {A} a.
Arguments Raise {A} e.

Definition is_ok {A} (r : result A) : bool :=
  match r with Ok _ => true | Raise _ => false end.

(** Keyword arguments, in call order. *)
Definition kwargs : Type := list (string * value).

(** ** Strings: [str.lower] and [str.startswith]

    Strings are byte strings.  [lower] maps the 26 capital letters and
    leaves every other byte alone, which is what [str.lower] does on ASCII
    text (no character outside ASCII lowers to a letter of one of the five
    prefixes tested below). *)

Definition lower_ascii (c : ascii) : ascii :=
  let n := nat_of_ascii c in
  if Nat.leb 65 n && Nat.leb n 90 then ascii_of_nat (n + 32) else c.

Fixpoint lower (s : string) : string :=
  match s with
  | EmptyString => EmptyString
  | String c r => String (lower_ascii c) (lower r)
  end.

Definition startswith (s p : string) : bool := String.prefix p s.

(** [','.join(l)] *)
Definition join (sep : string) (l : list string) : string := String.concat sep l.

(** ** The store of list objects

    List objects are named by their location.  The module global
    [_Metrics] is a reference that [parse_args] rebinds, and
    [args.metrics] defaults to the very object [_Metrics] referred to
    when the option was declared. *)

Definition loc : Type := positive.

(** [timemory.settings], the attributes that [parse_args] assigns. *)
Record settings : Type := Settings
  { enabled : bool;
    global_components : string;
    profiler_components : string;
    output_path : option string;
    text_output : bool;
    json_output : bool;
    cout_output : bool;
    plot_output : bool;
    flamegraph_output : bool }.

(** An instance of the engine-backed [class marker]: the list object and
    the keywords that [marker.__init__] hands to the engine's marker. *)
Record marker : Type := Marker
  { components : loc;
    marker_kwargs : kwargs }.

(** Instances of [class profile] and [class trace] (either branch): the
    arguments forwarded to the engine's constructors. *)
Record profile : Type := Profile
  { profile_args : list value;
    profile_kwargs : kwargs }.

Record trace : Type := Trace
  { trace_args : list value;
    trace_kwargs : kwargs }.

(** What [parse_args] stores under [builtins.__dict__]. *)
Inductive recorder : Type :=
  | RMarker (m : marker)
  | RProfile (p : profile)
  | RTrace (t : trace).

Record state : Type := State
  { heap : gmap loc (list string);
    _Metrics : loc;
    timemory_initialised : bool;
    timemory_settings : settings;
    builtins : gmap string recorder }.

Definition set_heap (h : gmap loc (list string)) (st : state) : state :=
  {| heap := h; _Metrics := _Metrics st;
     timemory_initialised := timemory_initialised st;
     timemory_settings := timemory_settings st; builtins := builtins st |}.

Definition set_Metrics (l : loc) (st : state) : state :=
  {| heap := heap st; _Metrics := l;
     timemory_initialised := timemory_initialised st;
     timemory_settings := timemory_settings st; builtins := builtins st |}.

Definition set_initialised (b : bool) (st : state) : state :=
  {| heap := heap st; _Metrics := _Metrics st;
     timemory_initialised := b;
     timemory_settings := timemory_settings st; builtins := builtins st |}.

Definition set_settings (s : settings) (st : state) : state :=
  {| heap := heap st; _Metrics := _Metrics st;
     timemory_initialised := timemory_initialised st;
     timemory_settings := s; builtins := builtins st |}.

Definition set_builtin (k : string) (r : recorder) (st : state) : state :=
  {| heap := heap st; _Metrics := _Metrics st;
     timemory_initialised := timemory_initialised st;
     timemory_settings := timemory_settings st;
     builtins := <[k := r]> (builtins st) |}.

(** A new list object: a location the store does not use yet. *)
Definition alloc (l : list string) (st : state) : loc * state :=
  let p := fresh (dom (heap st)) in
  (p, set_heap (<[p := l]> (heap st)) st).

(** The contents of a list object ([None] for a location that names no
    object, which a reference held by the program never is). *)
Definition deref (p : loc) (st : state) : option (list string) := heap st !! p.

(** ** The measurement engine, as far as the module relies on it *)

Inductive component : Type :=
  | WallClock
  | CpuClock
  | CudaEvent
  | UserClock
  | SysClock.

(** The exception triple that [with] passes to [__exit__]. *)
Definition exit_method (Self W : Type) : Type :=
  Self -> option exc_type -> option exception -> option (list string) ->
  W -> result value * W.

Definition callable (W : Type) : Type :=
  list value -> kwargs -> W -> result value * W.

Class Registry : Type :=
  { (** the engine's own state: samples, installed hooks, output streams *)
    engine : Type;
    (** [X.unit()] and [X.display_unit()] of a component class *)
    component_unit : component -> Z;
    component_display_unit : component -> string;
    (** the methods the engine-backed classes inherit or delegate to *)
    base_marker_call : marker -> callable engine -> callable engine;
    base_marker_enter : marker -> engine -> result value * engine;
    base_marker_exit : exit_method marker engine;
    base_profile_call : profile -> callable engine -> callable engine;
    base_profile_enter : profile -> engine -> result value * engine;
    base_profile_exit : exit_method profile engine;
    base_trace_call : trace -> callable engine -> callable engine;
    base_trace_enter : trace -> engine -> result value * engine;
    base_trace_exit : exit_method trace engine }.

(** ** The [with] statement

    [with mgr: body] calls [__enter__], runs the body and calls
    [__exit__]: with three [None] when the body ends normally, with the
    exception triple when it raises.  In the second case the exception is
    raised again unless [__exit__] returned a true value.  The result is
    [None] when the exception was suppressed. *)

Definition with_stmt {W A : Type}
    (enter : W -> result value * W)
    (exit : option exc_type -> option exception -> option (list string) ->
            W -> result value * W)
    (body : W -> result A * W) (w : W) : result (option A) * W :=
  match enter w with
  | (Raise e, w1) => (Raise e, w1)
  | (Ok _, w1) =>
      match body w1 with
      | (Ok a, w2) =>
          match exit None None None w2 with
          | (Ok _, w3) => (Ok (Some a), w3)
          | (Raise e', w3) => (Raise e', w3)
          end
      | (Raise e, w2) =>
          match exit (Some (exc_class e)) (Some e) (Some (exc_frames e)) w2 with
          | (Ok r, w3) => if truthy r then (Ok None, w3) else (Raise e, w3)
          | (Raise e', w3) => (Raise e', w3)
          end
      end
  end.

(** ** The engine-backed variant (the [try] branch) *)

Module Normal.

(** [class timer]: the component object with its label, and the two
    units fixed at construction. *)
Record timer : Type := Timer
  { _obj : component * string;
    _unit : Z;
    _disp : string }.

Definition make `{Registry} (c : component) (label : string) : timer :=
  {| _obj := (c, label);
     _unit := component_unit c;
     _disp := component_display_unit c |}.

(** [timer.__init__(self, dtype='wall', label='')] *)
Definition timer_init `{Registry} (dtype label : string) : result timer :=
  if startswith (lower dtype) "wall" then Ok (make WallClock label)
  else if startswith (lower dtype) "cpu" then Ok (make CpuClock label)
  else if startswith (lower dtype) "cuda_event" then Ok (make CudaEvent label)
  else if startswith (lower dtype) "user" then Ok (make UserClock label)
  else if startswith (lower dtype) "system" then Ok (make SysClock label)
  else Raise (Exc RuntimeError "invalid type" []).

Definition units (t : timer) : Z := _unit t.
Definition display_units (t : timer) : string := _disp t.

(** [marker.__init__(self, components=[], **kwargs)]:
    [_Metrics + components] is a new list object. *)
Definition marker_init (comps : list string) (kw : kwargs) (st : state)
    : option (marker * state) :=
  g ← deref (_Metrics st) st;
  let '(p, st1) := alloc (g ++ comps) st in
  Some (Marker p kw, st1).

(** The component names of a marker, in order. *)
Definition marker_components (m : marker) (st : state) : option (list string) :=
  deref (components m) st.

Definition marker_call `{Registry} (self : marker) (func : callable engine)
    : callable engine := base_marker_call self func.
Definition marker_enter `{Registry} (self : marker) := base_marker_enter self.
Definition marker_exit `{Registry} : exit_method marker engine :=
  fun self exc_type exc_value exc_traceback =>
    base_marker_exit self exc_type exc_value exc_traceback.

(** [profile.__init__(self, *args, **kwargs)] *)
Definition profile_init (args : list value) (kw : kwargs) : profile :=
  Profile args kw.
Definition profile_call `{Registry} (self : profile) (func : callable engine)
    : callable engine := base_profile_call self func.
Definition profile_enter `{Registry} (self : profile) := base_profile_enter self.
(** [profile.__exit__] is not overridden: the engine's is inherited. *)
Definition profile_exit `{Registry} : exit_method profile engine :=
  base_profile_exit.

(** [trace.__init__(self, *args, **kwargs)] *)
Definition trace_init (args : list value) (kw : kwargs) : trace :=
  Trace args kw.
Definition trace_call `{Registry} (self : trace) (func : callable engine)
    : callable engine := base_trace_call self func.
Definition trace_enter `{Registry} (self : trace) := base_trace_enter self.
Definition trace_exit `{Registry} : exit_method trace engine :=
  fun self exc_type exc_value exc_traceback =>
    base_trace_exit self exc_type exc_value exc_traceback.

(** The options of a command line that [argparse] accepted; [None] is an
    option that was not given, for which [argparse] supplies the declared
    default.  A command line that [argparse] refuses (an output mode
    outside the declared choices, [--metrics] without a value, an option
    that was never declared) makes [parser.parse_args()] leave the
    program: the values of this type are not meant to stand for such a
    command line. *)
Record cli : Type := Cli
  { cli_disable_prof : bool;
    cli_metrics : option (list string);
    cli_profile : bool;
    cli_trace : bool;
    cli_perf_output_dir : option string;
    cli_perf_output_mode : option (list string) }.

(** The namespace returned by [parser.parse_args()]. *)
Record args : Type := Args
  { disable_prof : bool;
    metrics : loc;
    want_profile : bool;
    want_trace : bool;
    perf_output_dir : option string;
    perf_output_mode : list string }.

(** [parser.parse_args()] once the six options are declared on a parser
    that did not have them, for a command line it accepts: the default of
    [--metrics] is the object [_Metrics] refers to, a given list is a new
    object. *)
Definition parser_parse_args (c : cli) (st : state) : args * state :=
  let '(m, st1) :=
    match cli_metrics c with
    | None => (_Metrics st, st)
    | Some l => alloc l st
    end in
  ({| disable_prof := cli_disable_prof c;
      metrics := m;
      want_profile := cli_profile c;
      want_trace := cli_trace c;
      perf_output_dir := cli_perf_output_dir c;
      perf_output_mode := default ["cout"; "text"] (cli_perf_output_mode c) |},
   st1).

Definition has_mode (m : string) (a : args) : bool :=
  bool_decide (m ∈ perf_output_mode a).

(** [parse_args(parser)] *)
Definition parse_args (c : cli) (st : state) : option (args * state) :=
  let st0 := set_initialised true st in
  let '(a, st1) := parser_parse_args c st0 in
  let s := timemory_settings st1 in
  if negb (disable_prof a) then
    let st2 := set_Metrics (metrics a) st1 in
    ms ← deref (metrics a) st2;
    let st3 := set_settings
      {| enabled := true;
         global_components := join "," ms;
         profiler_components := join "," ms;
         output_path :=
           match perf_output_dir a with
           | Some d => Some d
           | None => output_path s
           end;
         text_output := has_mode "text" a;
         json_output := has_mode "json" a;
         cout_output := has_mode "cout" a;
         plot_output := has_mode "plot" a;
         flamegraph_output := has_mode "flamegraph" a |} st2 in
    '(_Prof, st4) ←
      (if want_profile a then Some (RProfile (profile_init [] []), st3)
       else if want_trace a then Some (RTrace (trace_init [] []), st3)
       else '(m, st') ← marker_init [] [] st3; Some (RMarker m, st'));
    Some (a, set_builtin "mlperf_prof.record" _Prof st4)
  else
    let st2 := set_settings
      {| enabled := false;
         global_components := global_components s;
         profiler_components := profiler_components s;
         output_path := output_path s;
         text_output := text_output s;
         json_output := json_output s;
         cout_output := cout_output s;
         plot_output := plot_output s;
         flamegraph_output := flamegraph_output s |} st1 in
    let '(p, st3) := alloc [] st2 in
    Some (a, set_Metrics p st3).

End Normal.

(** The state of the engine-backed module: [boot] once
    [_Metrics = ['wall_clock']] has run, [loaded] once the last two
    statements of the module have stored a default marker under
    [builtins.__dict__].  [s0] is what [timemory.settings] holds then. *)
Definition boot (s0 : settings) : state :=
  {| heap := {[ 1%positive := ["wall_clock"] ]};
     _Metrics := 1%positive;
     timemory_initialised := false;
     timemory_settings := s0;
     builtins := ∅ |}.

Definition loaded (s0 : settings) : option state :=
  '(_Prof, st) ← Normal.marker_init [] [] (boot s0);
  Some (set_builtin "mlperf_prof_record" (RMarker _Prof) st).

(** An exception raised by the interpreter itself (a call that does not
    fit the signature, an unbound name, a missing attribute): only its
    class is modelled. *)
Definition interp_error (c : exc_type) : exception := Exc c "" [].

(** ** The dummy variant (the [except] branch) *)

Module Fallback.

(** What the application can observe: its own state and the stream
    [traceback.print_exception] writes to. *)
Record world (U : Type) : Type := World
  { stderr : list string;
    app : U }.
Arguments World {U} _ _.
Arguments stderr {U} _.
Arguments app {U} _.

Definition get_results (report : value) : value := VDict [].

Definition finalize : value := VNone.

(** [parse_args(parser)] returns what [parser.parse_args()] returns. *)
Definition parse_args {N : Type} (parser_parse_args : result N) : result N :=
  parser_parse_args.

(** [class marker(object)] has no attribute. *)
Inductive marker : Type := Marker.

(** [marker.__init__(self)]: a call with any argument does not fit. *)
Definition marker_init (args : list value) (kw : kwargs) : result marker :=
  match args, kw with
  | [], [] => Ok Marker
  | _, _ => Raise (interp_error TypeError)
  end.

(** [marker.__call__(self, func)] returns [function_wrapper]. *)
Definition marker_call {W : Type} (self : marker) (func : callable W)
    : callable W :=
  fun args kw w =>
    match func args kw w with
    | (Ok _ret, w1) => (Ok _ret, w1)
    | (Raise e, w1) => (Raise e, w1)
    end.

Definition marker_enter {W : Type} (self : marker) (w : W) : result value * W :=
  (Ok VNone, w).

Definition exc_name (c : exc_type) : string :=
  match c with
  | ImportError => "ImportError"
  | NameError => "NameError"
  | AttributeError => "AttributeError"
  | TypeError => "TypeError"
  | RuntimeError => "RuntimeError"
  | UserError n => n
  end.

(** The last line [traceback.print_exception] writes: the class name,
    followed by the message when there is one. *)
Definition exception_line (ty : exc_type) (v : exception) : string :=
  if String.eqb (exc_msg v) "" then exc_name ty
  else String.append (exc_name ty) (String.append ": " (exc_msg v)).

(** [traceback.print_exception(exc_type, exc_value, exc_traceback, limit)]
    for an exception that is not chained to another one (the record
    [exception] has no cause and no context): the header, the first
    [limit] entries of the traceback, the exception line. *)
Definition print_exception {U : Type} (ty : exc_type) (v : exception)
    (tb : list string) (limit : nat) (w : world U) : world U :=
  World (stderr w ++ "Traceback (most recent call last):" :: firstn limit tb
                  ++ [exception_line ty v])
        (app w).

(** [marker.__exit__(self, exc_type, exc_value, exc_traceback)]: no
    [return] statement, so the result is [None]. *)
Definition marker_exit {U : Type} : exit_method marker (world U) :=
  fun self exc_type exc_value exc_traceback w =>
    match exc_type, exc_value, exc_traceback with
    | Some ty, Some v, Some tb => (Ok VNone, print_exception ty v tb 5 w)
    | _, _, _ => (Ok VNone, w)
    end.

(** The [except] branch derives [profile] and [trace] from the engine's
    classes again; only [__init__] is defined. *)
Definition profile_init (args : list value) (kw : kwargs) : profile :=
  Profile args kw.
Definition trace_init (args : list value) (kw : kwargs) : trace :=
  Trace args kw.

Record timer : Type := Timer { _obj : value }.

(** [timer.__init__(self, dtype)]: exactly one argument, by position or
    by name. *)
Definition timer_init (args : list value) (kw : kwargs) : result timer :=
  match args, kw with
  | [dtype], [] => Ok (Timer VNone)
  | [], [(k, dtype)] =>
      if String.eqb k "dtype" then Ok (Timer VNone)
      else Raise (interp_error TypeError)
  | _, _ => Raise (interp_error TypeError)
  end.

Definition get (self : timer) : value := VFloat 0 0.
Definition start (self : timer) : value := VNone.
Definition stop (self : timer) : value := VNone.
Definition laps (self : timer) : value := VInt 0.
Definition units (self : timer) : value := VInt 0.
Definition display_units (self : timer) : value := VStr "".

End Fallback.

(** ** Loading the module

    The module-level statements from [_Metrics = ['wall_clock']] to the
    end of the file, run against an installation of the engine.  The
    imports above that line are taken to have succeeded, and so is the
    engine's marker constructor in the last statements; [load_module],
    further down, runs the module from its first line without either
    assumption. *)

Module Load.

(** The branch of the [try] statement a definition comes from. *)
Inductive origin : Type := Engine | Dummy.

(** What a name of the module namespace is bound to.  A class records
    the dotted path of the engine class it derives from, if any. *)
Inductive entity : Type :=
  | EModule (name : string)
  | EComponent (c : component)
  | EList (l : list string)
  | EFunction (o : origin) (name : string)
  | EClass (o : origin) (name : string) (base : option string)
  | EInstance (o : origin) (cls : string).

(** The installation: the outcome of each [import] statement ([None]
    when it succeeds) and the attribute paths each one makes reachable
    from the name [timemory]. *)
Record world : Type := World
  { import_timemory : option exception;
    import_component : option exception;
    import_profiler : option exception;
    import_line_profiler : option exception;
    import_json : option exception;
    timemory_attrs : gset string;
    profiler_attrs : gset string;
    line_profiler_attrs : gset string }.

Record module_state : Type := ModuleState
  { names : gmap string entity;
    attrs : gset string;
    stdout : list string;
    builtins_dict : gmap string entity }.

Definition empty_state : module_state :=
  {| names := ∅; attrs := ∅; stdout := []; builtins_dict := ∅ |}.

(** Statements: they run on the module state and end normally or raise;
    what was bound before a [raise] stays bound. *)
Definition load (A : Type) : Type := module_state -> result A * module_state.

Definition ret {A} (a : A) : load A := fun s => (Ok a, s).

Definition raise {A} (e : exception) : load A := fun s => (Raise e, s).

Definition bind {A B} (m : load A) (k : A -> load B) : load B :=
  fun s =>
    match m s with
    | (Ok a, s1) => k a s1
    | (Raise e, s1) => (Raise e, s1)
    end.

(** [try: body except Exception as e: handler e] *)
Definition try_except {A} (body : load A) (handler : exception -> load A)
    : load A :=
  fun s =>
    match body s with
    | (Ok a, s1) => (Ok a, s1)
    | (Raise e, s1) => handler e s1
    end.

Declare Scope load_scope.
Delimit Scope load_scope with load.
Notation "x <- m ;; k" := (bind m (fun x => k))
  (at level 100, m at next level, right associativity) : load_scope.
Notation "m ;; k" := (bind m (fun _ => k))
  (at level 100, right associativity) : load_scope.
Local Open Scope load_scope.

Definition bind_name (n : string) (e : entity) : load unit :=
  fun s => (Ok tt, {| names := <[n := e]> (names s); attrs := attrs s;
                      stdout := stdout s; builtins_dict := builtins_dict s |}).

Definition add_attrs (a : gset string) : load unit :=
  fun s => (Ok tt, {| names := names s; attrs := attrs s ∪ a;
                      stdout := stdout s; builtins_dict := builtins_dict s |}).

Definition print (line : string) : load unit :=
  fun s => (Ok tt, {| names := names s; attrs := attrs s;
                      stdout := stdout s ++ [line];
                      builtins_dict := builtins_dict s |}).

Definition set_builtin (k : string) (e : entity) : load unit :=
  fun s => (Ok tt, {| names := names s; attrs := attrs s; stdout := stdout s;
                      builtins_dict := <[k := e]> (builtins_dict s) |}).

(** Reading a global name. *)
Definition lookup_name (n : string) : load entity :=
  fun s =>
    match names s !! n with
    | Some e => (Ok e, s)
    | None => (Raise (interp_error NameError), s)
    end.

(** Evaluating a dotted expression [root.a.b]. *)
Definition getattr (root path : string) : load unit :=
  _ <- lookup_name root ;;
  fun s =>
    if bool_decide (path ∈ attrs s) then (Ok tt, s)
    else (Raise (interp_error AttributeError), s).

Definition import_ (outcome : option exception) (k : load unit) : load unit :=
  match outcome with
  | None => k
  | Some e => raise e
  end.

Definition try_branch (w : world) : load unit :=
  import_ (import_timemory w)
    (bind_name "timemory" (EModule "timemory") ;;
     add_attrs (timemory_attrs w)) ;;
  import_ (import_component w)
    (bind_name "WallClock" (EComponent WallClock) ;;
     bind_name "CpuClock" (EComponent CpuClock) ;;
     bind_name "CudaEvent" (EComponent CudaEvent) ;;
     bind_name "UserClock" (EComponent UserClock) ;;
     bind_name "SysClock" (EComponent SysClock)) ;;
  import_ (import_profiler w) (add_attrs (profiler_attrs w)) ;;
  import_ (import_line_profiler w) (add_attrs (line_profiler_attrs w)) ;;
  import_ (import_json w) (bind_name "json" (EModule "json")) ;;
  bind_name "get_results" (EFunction Engine "get_results") ;;
  bind_name "finalize" (EFunction Engine "finalize") ;;
  getattr "timemory" "timemory.util.marker" ;;
  bind_name "marker" (EClass Engine "marker" (Some "timemory.util.marker")) ;;
  getattr "timemory" "timemory.profiler.profile" ;;
  bind_name "profile" (EClass Engine "profile" (Some "timemory.profiler.profile")) ;;
  getattr "timemory" "timemory.line_profiler.LineProfiler" ;;
  bind_name "trace"
    (EClass Engine "trace" (Some "timemory.line_profiler.LineProfiler")) ;;
  bind_name "timer" (EClass Engine "timer" None) ;;
  bind_name "parse_args" (EFunction Engine "parse_args").

Definition except_branch (e : exception) : load unit :=
  print (exc_msg e) ;;
  bind_name "get_results" (EFunction Dummy "get_results") ;;
  bind_name "finalize" (EFunction Dummy "finalize") ;;
  bind_name "parse_args" (EFunction Dummy "parse_args") ;;
  bind_name "marker" (EClass Dummy "marker" None) ;;
  getattr "timemory" "timemory.profiler.profile" ;;
  bind_name "profile" (EClass Dummy "profile" (Some "timemory.profiler.profile")) ;;
  getattr "timemory" "timemory.line_profiler.LineProfiler" ;;
  bind_name "trace"
    (EClass Dummy "trace" (Some "timemory.line_profiler.LineProfiler")) ;;
  bind_name "timer" (EClass Dummy "timer" None).

(** [marker()]: the engine's constructor is taken to succeed. *)
Definition new_marker : load entity :=
  c <- lookup_name "marker" ;;
  match c with
  | EClass Dummy cls _ =>
      match Fallback.marker_init [] [] with
      | Ok _ => ret (EInstance Dummy cls)
      | Raise e => raise e
      end
  | EClass Engine cls _ => ret (EInstance Engine cls)
  | _ => raise (interp_error TypeError)
  end.

Definition module_body (w : world) : load unit :=
  bind_name "_Metrics" (EList ["wall_clock"]) ;;
  try_except (try_branch w) except_branch ;;
  _Prof <- new_marker ;;
  bind_name "_Prof" _Prof ;;
  set_builtin "mlperf_prof_record" _Prof.

Definition run (w : world) : result unit * module_state :=
  module_body w empty_state.

(** The public entities, and the test that a binding is a definition of
    the [except] branch that does not touch the engine. *)
Definition public_names : list string :=
  ["get_results"; "finalize"; "parse_args"; "marker"; "profile"; "trace";
   "timer"].

Definition inert (e : entity) : bool :=
  match e with
  | EFunction Dummy _ => true
  | EClass Dummy _ None => true
  | _ => false
  end.

Definition bound_inert (s : module_state) (n : string) : bool :=
  match names s !! n with
  | Some e => inert e
  | None => false
  end.

Definition all_inert (s : module_state) : bool :=
  forallb (bound_inert s) public_names.

(** An installation without the engine, and one where the engine is
    there but its component classes fail to import. *)
Definition no_engine : world :=
  {| import_timemory := Some (Exc ImportError "No module named 'timemory'" []);
     import_component := None;
     import_profiler := None;
     import_line_profiler := None;
     import_json := None;
     timemory_attrs := ∅;
     profiler_attrs := ∅;
     line_profiler_attrs := ∅ |}.

Definition broken_components : world :=
  {| import_timemory := None;
     import_component :=
       Some (Exc ImportError "cannot import name 'CudaEvent'" []);
     import_profiler := None;
     import_line_profiler := None;
     import_json := None;
     timemory_attrs :=
       {[ "timemory.util.marker"; "timemory.profiler.profile";
          "timemory.line_profiler.LineProfiler" ]};
     profiler_attrs := ∅;
     line_profiler_attrs := ∅ |}.

Definition full_engine : world :=
  {| import_timemory := None;
     import_component := None;
     import_profiler := None;
     import_line_profiler := None;
     import_json := None;
     timemory_attrs := {[ "timemory.util.marker" ]};
     profiler_attrs := {[ "timemory.profiler.profile" ]};
     line_profiler_attrs := {[ "timemory.line_profiler.LineProfiler" ]} |}.

End Load.

(** ** Reference points for the statements below *)

(** The five kind names of the timer contract, in the order they are
    tried, each with the component it selects. *)
Definition kind_table : list (string * component) :=
  [("wall", WallClock); ("cpu", CpuClock); ("cuda_event", CudaEvent);
   ("user", UserClock); ("system", SysClock)].

Definition timer_kinds : list string := kind_table.*1.

Definition kind_of (c : component) : string :=
  match c with
  | WallClock => "wall"
  | CpuClock => "cpu"
  | CudaEvent => "cuda_event"
  | UserClock => "user"
  | SysClock => "system"
  end.

(** The first entry of the table whose name is a prefix of [s]. *)
Definition first_prefix_match (s : string) : option (string * component) :=
  find (fun kc => startswith s kc.1) kind_table.

(** An engine that only keeps a log: every [__enter__] and [__exit__]
    writes a line, and [__exit__] has no [return] value. *)
Definition log_line (l : string) (w : list string) : result value * list string :=
  (Ok VNone, w ++ [l]).

Definition logging_registry : Registry :=
  {| engine := list string;
     component_unit := fun _ => 1%Z;
     component_display_unit := fun _ => "sec";
     base_marker_call := fun _ f => f;
     base_marker_enter := fun _ => log_line "marker start";
     base_marker_exit := fun _ _ _ _ => log_line "marker stop";
     base_profile_call := fun _ f => f;
     base_profile_enter := fun _ => log_line "profile start";
     base_profile_exit := fun _ _ _ _ => log_line "profile stop";
     base_trace_call := fun _ f => f;
     base_trace_enter := fun _ => log_line "trace start";
     base_trace_exit := fun _ _ _ _ => log_line "trace stop" |}.

Definition default_settings : settings :=
  {| enabled := true;
     global_components := "";
     profiler_components := "";
     output_path := None;
     text_output := false;
     json_output := false;
     cout_output := false;
     plot_output := false;
     flamegraph_output := false |}.

(** What the application may do with the engine-backed module after a
    marker exists: parse the options (again), or build further markers. *)
Inductive action : Type :=
  | DoParseArgs (c : Normal.cli)
  | DoMarker (comps : list string) (kw : kwargs).

Definition perform (a : action) (st : state) : option state :=
  match a with
  | DoParseArgs c => snd <$> Normal.parse_args c st
  | DoMarker comps kw => snd <$> Normal.marker_init comps kw st
  end.

Fixpoint perform_all (l : list action) (st : state) : option state :=
  match l with
  | [] => Some st
  | a :: r => st1 ← perform a st; perform_all r st1
  end.

(** A run used to exercise the statements: a marker for [cpu_clock] is
    built right after loading, then the options select [user_clock]. *)
Definition demo_cli : Normal.cli :=
  {| Normal.cli_disable_prof := false;
     Normal.cli_metrics := Some ["user_clock"];
     Normal.cli_profile := false;
     Normal.cli_trace := false;
     Normal.cli_perf_output_dir := None;
     Normal.cli_perf_output_mode := None |}.

Definition demo_marker : marker :=
  Marker (alloc ["wall_clock"; "cpu_clock"] (boot default_settings)).1 [].

Definition demo_state1 : state :=
  (alloc ["wall_clock"; "cpu_clock"] (boot default_settings)).2.

Definition demo_state2 : state :=
  default demo_state1 (perform_all [DoParseArgs demo_cli] demo_state1).

(** The options of the scenario: profiling enabled, metrics
    [wall_clock cpu_clock]. *)
Definition scenario_cli : Normal.cli :=
  {| Normal.cli_disable_prof := false;
     Normal.cli_metrics := Some ["wall_clock"; "cpu_clock"];
     Normal.cli_profile := false;
     Normal.cli_trace := false;
     Normal.cli_perf_output_dir := None;
     Normal.cli_perf_output_mode := None |}.

(** Two assertions on statements of the module body: [frame n m] says
    that [m], when it ends normally, leaves the binding of [n] as it was;
    [binds n Q m] says that it leaves [n] bound to an entity satisfying
    [Q]. *)
Definition frame {A} (n : string) (m : Load.load A) : Prop :=
  forall s a s1, m s = (Ok a, s1) -> Load.names s1 !! n = Load.names s !! n.

Definition binds {A} (n : string) (Q : Load.entity -> Prop) (m : Load.load A)
    : Prop :=
  forall s a s1, m s = (Ok a, s1) ->
    exists e, Load.names s1 !! n = Some e /\ Q e.

(** ** Further reference points *)

(** [timemory.settings] after a parse that leaves profiling enabled, for
    the metrics [ms], the namespace [a] and the settings [s] found. *)
Definition enabled_settings (ms : list string) (a : Normal.args) (s : settings)
    : settings :=
  {| enabled := true;
     global_components := join "," ms;
     profiler_components := join "," ms;
     output_path :=
       match Normal.perf_output_dir a with
       | Some d => Some d
       | None => output_path s
       end;
     text_output := Normal.has_mode "text" a;
     json_output := Normal.has_mode "json" a;
     cout_output := Normal.has_mode "cout" a;
     plot_output := Normal.has_mode "plot" a;
     flamegraph_output := Normal.has_mode "flamegraph" a |}.

(** The same settings with profiling switched off. *)
Definition disabled_settings (s : settings) : settings :=
  {| enabled := false;
     global_components := global_components s;
     profiler_components := profiler_components s;
     output_path := output_path s;
     text_output := text_output s;
     json_output := json_output s;
     cout_output := cout_output s;
     plot_output := plot_output s;
     flamegraph_output := flamegraph_output s |}.

(** A command line that gives no option at all. *)
Definition empty_cli : Normal.cli :=
  {| Normal.cli_disable_prof := false;
     Normal.cli_metrics := None;
     Normal.cli_profile := false;
     Normal.cli_trace := false;
     Normal.cli_perf_output_dir := None;
     Normal.cli_perf_output_mode := None |}.

(** [--disable-prof] alone. *)
Definition disable_cli : Normal.cli :=
  {| Normal.cli_disable_prof := true;
     Normal.cli_metrics := None;
     Normal.cli_profile := false;
     Normal.cli_trace := false;
     Normal.cli_perf_output_dir := None;
     Normal.cli_perf_output_mode := None |}.

(** [keeps f m]: whether [m] ends normally or raises, it leaves the part
    [f] of the module state as it was. *)
Definition keeps {A X} (f : Load.module_state -> X) (m : Load.load A) : Prop :=
  forall s r s1, m s = (r, s1) -> f s1 = f s.

(** The module state once [_Metrics = ['wall_clock']] has run, and the
    last two statements of the module. *)
Definition after_metrics : Load.module_state :=
  {| Load.names := <["_Metrics" := Load.EList ["wall_clock"]]> ∅;
     Load.attrs := ∅;
     Load.stdout := [];
     Load.builtins_dict := ∅ |}.

Definition module_tail : Load.load unit :=
  Load.bind Load.new_marker (fun _Prof =>
  Load.bind (Load.bind_name "_Prof" _Prof) (fun _ =>
  Load.set_builtin "mlperf_prof_record" _Prof)).




(** ** The example program, [examples/basic.py]

    [fibonacci(n)] on Python integers.  The recursion goes down from [n]
    to below [2]; the recursion limit of the interpreter is not modelled. *)

From Equations Require Import Equations.

Equations? fibonacci (n : Z) : Z by wf (Z.to_nat n) lt :=
  fibonacci n with Z_lt_dec n 2 := {
    | left _ => n
    | right _ => (fibonacci (n - 1) + fibonacci (n - 2))%Z }.
Proof. all: lia. Qed.

(** The Fibonacci numbers by iteration on a pair, for comparison. *)
Fixpoint fib_pair (k : nat) : Z * Z :=
  match k with
  | O => (0, 1)%Z
  | S k' => let '(a, b) := fib_pair k' in (b, (a + b)%Z)
  end.

Definition fib_iter (k : nat) : Z := (fib_pair k).1.

(** An installation in which the engine is complete: the five imports
    succeed and the three classes the module derives from can be reached
    from the name [timemory] once they have run. *)
Definition engine_attrs (w : Load.world) : gset string :=
  Load.timemory_attrs w ∪ Load.profiler_attrs w ∪ Load.line_profiler_attrs w.

Definition engine_ready (w : Load.world) : Prop :=
  Load.import_timemory w = None
  /\ Load.import_component w = None
  /\ Load.import_profiler w = None
  /\ Load.import_line_profiler w = None
  /\ Load.import_json w = None
  /\ "timemory.util.marker" ∈ engine_attrs w
  /\ "timemory.profiler.profile" ∈ engine_attrs w
  /\ "timemory.line_profiler.LineProfiler" ∈ engine_attrs w.

(** ** The module from its first line

    [Load.module_body] starts below the imports of the first lines and
    takes the engine's marker constructor to succeed.  An [installation]
    adds the outcome of both: [preamble] is what the unguarded imports
    above the [try] statement raise, if anything ([six] is one of them),
    [engine_marker] what the engine's marker raises when it is built
    without argument by the last statements.  The names the first lines
    bind ([os], [six], [sys] and the like) are not tracked. *)
Record installation : Type := Installation
  { preamble : option exception;
    site : Load.world;
    engine_marker : option exception }.

(** [marker()] in the last statements of the module. *)
Definition new_marker_at (i : installation) : Load.load Load.entity :=
  Load.bind (Load.lookup_name "marker") (fun c =>
    match c with
    | Load.EClass Load.Dummy cls _ =>
        match Fallback.marker_init [] [] with
        | Ok _ => Load.ret (Load.EInstance Load.Dummy cls)
        | Raise e => Load.raise e
        end
    | Load.EClass Load.Engine cls _ =>
        match engine_marker i with
        | None => Load.ret (Load.EInstance Load.Engine cls)
        | Some e => Load.raise e
        end
    | _ => Load.raise (interp_error TypeError)
    end).

Definition module_tail_at (i : installation) : Load.load unit :=
  Load.bind (new_marker_at i) (fun _Prof =>
  Load.bind (Load.bind_name "_Prof" _Prof) (fun _ =>
  Load.set_builtin "mlperf_prof_record" _Prof)).

Definition module_at (i : installation) : Load.load unit :=
  Load.bind (Load.import_ (preamble i) (Load.ret tt)) (fun _ =>
  Load.bind (Load.bind_name "_Metrics" (Load.EList ["wall_clock"])) (fun _ =>
  Load.bind (Load.try_except (Load.try_branch (site i)) Load.except_branch)
            (fun _ => module_tail_at i))).

Definition load_module (i : installation) : result unit * Load.module_state :=
  module_at i Load.empty_state.


(** A complete installation, one without [six], and one whose engine
    refuses to build a marker without argument. *)
Definition complete_installation : installation :=
  {| preamble := None; site := Load.full_engine; engine_marker := None |}.



(** The seven public names after a branch of the [try] statement that
    ended normally. *)
Definition branch_names (o : Load.origin) (s : Load.module_state) : Prop :=
  Load.names s !! "get_results" = Some (Load.EFunction o "get_results")
  /\ Load.names s !! "finalize" = Some (Load.EFunction o "finalize")
  /\ Load.names s !! "parse_args" = Some (Load.EFunction o "parse_args")
  /\ (exists base, Load.names s !! "marker" = Some (Load.EClass o "marker" base))
  /\ Load.names s !! "profile" =
     Some (Load.EClass o "profile" (Some "timemory.profiler.profile"))
  /\ Load.names s !! "trace" =
     Some (Load.EClass o "trace" (Some "timemory.line_profiler.LineProfiler"))
  /\ Load.names s !! "timer" = Some (Load.EClass o "timer" None).

(** ** Strings *)

Lemma prefix_comparable (p q s : string) :
  String.prefix p s = true -> String.prefix q s = true ->
  String.prefix p q = true \/ String.prefix q p = true.
Proof.
  revert p q. induction s as [|c s IH]; intros p q Hp Hq.
  - destruct p; [left; destruct q; reflexivity | discriminate].
  - destruct p as [|a p]; [left; destruct q; reflexivity|].
    destruct q as [|b q]; [right; reflexivity|].
    simpl in Hp, Hq.
    destruct (Ascii.ascii_dec a c) as [->|]; [|discriminate].
    destruct (Ascii.ascii_dec b c) as [->|]; [|discriminate].
    simpl. destruct (Ascii.ascii_dec c c); [|congruence].
    apply IH; assumption.
Qed.

(** Two kind names never match the same string: none is a prefix of
    another. *)
Lemma kinds_exclusive (s : string) (c d : component) :
  startswith s (kind_of c) = true -> startswith s (kind_of d) = true -> c = d.
Proof.
  unfold startswith. intros Hc Hd.
  destruct (prefix_comparable _ _ _ Hc Hd) as [H|H];
    destruct c, d; try reflexivity; vm_compute in H; discriminate.
Qed.

(** ** The timer kinds *)

Section TimerKinds.
Context `{R : Registry}.

Lemma timer_init_first_match (dtype label : string) :
  Normal.timer_init dtype label =
  match first_prefix_match (lower dtype) with
  | Some (_, c) => Ok (Normal.make c label)
  | None => Raise (Exc RuntimeError "invalid type" [])
  end.
Proof.
  unfold Normal.timer_init, first_prefix_match, kind_table. simpl find.
  repeat (destruct (startswith (lower dtype) _); [reflexivity|]).
  reflexivity.
Qed.

Lemma first_prefix_match_some (s : string) (c : component) :
  (exists k, first_prefix_match s = Some (k, c)) <->
  startswith s (kind_of c) = true.
Proof.
  unfold first_prefix_match. split.
  - intros [k Hk]. apply find_some in Hk as [Hin Hp].
    simpl in Hp. unfold kind_table in Hin. simpl in Hin.
    repeat (destruct Hin as [Hin|Hin];
            [injection Hin as <- <-; exact Hp|]).
    destruct Hin.
  - intros Hc.
    destruct (find _ kind_table) as [[k d]|] eqn:Hf.
    + exists k. apply find_some in Hf as [Hin Hp]. simpl in Hp.
      assert (k = kind_of d) as ->.
      { unfold kind_table in Hin. simpl in Hin.
        repeat (destruct Hin as [Hin|Hin];
                [injection Hin as <- <-; reflexivity|]).
        destruct Hin. }
      by rewrite (kinds_exclusive s c d Hc Hp).
    + exfalso.
      assert (In (kind_of c, c) kind_table) as Hin
        by (destruct c; simpl; tauto).
      pose proof (find_none _ _ Hf _ Hin) as Hn. simpl in Hn. congruence.
Qed.

Lemma first_prefix_match_none (s : string) :
  first_prefix_match s = None <->
  forall c, startswith s (kind_of c) = false.
Proof.
  split.
  - intros Hf c.
    destruct (startswith s (kind_of c)) eqn:Hc; [|reflexivity].
    apply first_prefix_match_some in Hc as [k Hk]. congruence.
  - intros Hn.
    destruct (first_prefix_match s) as [[k c]|] eqn:Hf; [|reflexivity].
    assert (startswith s (kind_of c) = true) as Hc
      by (apply first_prefix_match_some; eauto).
    rewrite Hn in Hc. discriminate.
Qed.

Lemma make_inj (c d : component) (label : string) :
  Normal.make c label = Normal.make d label -> c = d.
Proof. unfold Normal.make. intros H. by injection H. Qed.

(** C10.  The kind of a timer is chosen by the first of the five names
    wall, cpu, cuda_event, user, system that is a prefix of the kind
    string in lower case: a string starting with one of them builds the
    timer of that component (so WALL_TIME builds a wall-clock timer), a
    string starting with none of them (such as cuda) raises. *)
Theorem timer_dispatch_by_prefix (dtype label : string) :
  Normal.timer_init dtype label =
    match first_prefix_match (lower dtype) with
    | Some (_, c) => Ok (Normal.make c label)
    | None => Raise (Exc RuntimeError "invalid type" [])
    end
  /\ (forall c, Normal.timer_init dtype label = Ok (Normal.make c label) <->
                startswith (lower dtype) (kind_of c) = true)
  /\ Normal.timer_init "WALL_TIME" label = Ok (Normal.make WallClock label)
  /\ Normal.timer_init "cuda" label = Raise (Exc RuntimeError "invalid type" []).
Proof.
  split; [apply timer_init_first_match|].
  split; [|split; reflexivity].
  intros c. rewrite timer_init_first_match.
  rewrite <- first_prefix_match_some. split.
  - destruct (first_prefix_match (lower dtype)) as [[k d]|]; [|discriminate].
    intros H. assert (d = c) as -> by (apply (make_inj d c label); congruence).
    eauto.
  - intros [k ->]. reflexivity.
Qed.

(** C3, as the code has it.  With the engine available, building a timer
    succeeds exactly when the kind string, in lower case, starts with
    one of wall, cpu, cuda_event, user, system; the five names themselves
    are accepted; every other kind string raises the invalid-type error
    and no timer is produced. *)
Theorem timer_init_ok_iff_prefix (dtype label : string) :
  (is_ok (Normal.timer_init dtype label) = true <->
     exists k, k ∈ timer_kinds /\ startswith (lower dtype) k = true)
  /\ (forall k, k ∈ timer_kinds -> is_ok (Normal.timer_init k label) = true)
  /\ (is_ok (Normal.timer_init dtype label) = false ->
      Normal.timer_init dtype label = Raise (Exc RuntimeError "invalid type" [])).
Proof.
  split; [|split].
  - rewrite timer_init_first_match. split.
    + destruct (first_prefix_match (lower dtype)) as [[k c]|] eqn:Hf;
        [|discriminate].
      intros _. exists (kind_of c). split.
      * destruct c; vm_compute; set_solver.
      * apply first_prefix_match_some. eauto.
    + intros (k & Hin & Hk).
      assert (exists c, k = kind_of c) as [c ->].
      { vm_compute in Hin.
        repeat (apply elem_of_cons in Hin as [->|Hin]);
          [by exists WallClock | by exists CpuClock | by exists CudaEvent
          | by exists UserClock | by exists SysClock
          | by apply elem_of_nil in Hin]. }
      apply first_prefix_match_some in Hk as [k' ->]. reflexivity.
  - intros k Hin. vm_compute in Hin.
    repeat (apply elem_of_cons in Hin as [->|Hin]); try reflexivity.
    by apply elem_of_nil in Hin.
  - rewrite timer_init_first_match.
    destruct (first_prefix_match (lower dtype)) as [[k c]|];
      [discriminate | reflexivity].
Qed.

End TimerKinds.

(** C3, as stated, fails: WALL_TIME is none of the five names and a timer
    is built for it. *)
Lemma timer_init_accepts_unlisted_kind :
  ("WALL_TIME" ∉ timer_kinds)
  /\ @Normal.timer_init logging_registry "WALL_TIME" "" =
     Ok (@Normal.make logging_registry WallClock "").
Proof.
  split; [|reflexivity].
  vm_compute. intros Hin.
  repeat (apply elem_of_cons in Hin as [Hin|Hin]; [discriminate|]).
  by apply elem_of_nil in Hin.
Qed.

Lemma timer_init_ok_iff_prefix_witness :
  is_ok (@Normal.timer_init logging_registry "bogus" "") = false
  /\ @Normal.timer_init logging_registry "bogus" "" =
     Raise (Exc RuntimeError "invalid type" []).
Proof.
  split; [reflexivity|].
  apply (@timer_init_ok_iff_prefix logging_registry "bogus" "").
  reflexivity.
Defined.

(** ** The store: allocation only adds objects *)

Lemma alloc_fresh (l : list string) (st : state) :
  heap st !! (alloc l st).1 = None.
Proof. simpl. apply not_elem_of_dom, is_fresh. Qed.

Lemma deref_alloc (l : list string) (st : state) :
  deref (alloc l st).1 (alloc l st).2 = Some l.
Proof. unfold deref. simpl. apply lookup_insert_eq. Qed.

Lemma alloc_extends (l : list string) (st : state) :
  heap st ⊆ heap (alloc l st).2.
Proof. simpl. apply insert_subseteq, not_elem_of_dom, is_fresh. Qed.

Lemma alloc_Metrics (l : list string) (st : state) :
  _Metrics (alloc l st).2 = _Metrics st.
Proof. reflexivity. Qed.

Lemma marker_init_spec (comps : list string) (kw : kwargs) (st : state)
    (g : list string) :
  deref (_Metrics st) st = Some g ->
  Normal.marker_init comps kw st =
    Some (Marker (alloc (g ++ comps) st).1 kw, (alloc (g ++ comps) st).2).
Proof. unfold Normal.marker_init. intros ->. reflexivity. Qed.

Lemma marker_init_inv (comps : list string) (kw : kwargs) (st st1 : state)
    (m : marker) :
  Normal.marker_init comps kw st = Some (m, st1) ->
  exists g, deref (_Metrics st) st = Some g
    /\ m = Marker (alloc (g ++ comps) st).1 kw
    /\ st1 = (alloc (g ++ comps) st).2.
Proof.
  unfold Normal.marker_init. destruct (deref (_Metrics st) st) as [g|]; [|done].
  simpl. intros [= <- <-]. eauto.
Qed.

Lemma marker_init_extends (comps : list string) (kw : kwargs) (st st1 : state)
    (m : marker) :
  Normal.marker_init comps kw st = Some (m, st1) -> heap st ⊆ heap st1.
Proof.
  intros (g & _ & _ & ->)%marker_init_inv. apply alloc_extends.
Qed.

Lemma parser_parse_args_extends (c : Normal.cli) (st : state) :
  heap st ⊆ heap (Normal.parser_parse_args c st).2.
Proof.
  unfold Normal.parser_parse_args. destruct (Normal.cli_metrics c); simpl.
  - apply insert_subseteq, not_elem_of_dom, is_fresh.
  - done.
Qed.

Lemma parse_args_extends (c : Normal.cli) (st st1 : state) (a : Normal.args) :
  Normal.parse_args c st = Some (a, st1) -> heap st ⊆ heap st1.
Proof.
  unfold Normal.parse_args.
  pose proof (parser_parse_args_extends c (set_initialised true st)) as Hp.
  destruct (Normal.parser_parse_args c (set_initialised true st)) as [a0 st0].
  simpl in Hp.
  destruct (negb (Normal.disable_prof a0)).
  - destruct (deref _ _) as [ms|]; [|done]. simpl.
    destruct (Normal.want_profile a0); [|destruct (Normal.want_trace a0)];
      simpl.
    + intros [= <- <-]. exact Hp.
    + intros [= <- <-]. exact Hp.
    + match goal with
      | |- context [Normal.marker_init ?c ?k ?s] =>
          destruct (Normal.marker_init c k s) as [[m s']|] eqn:Hm; [|done]
      end.
      simpl. intros [= <- <-]. apply marker_init_extends in Hm.
      simpl in *. by etrans.
  - intros [= <- <-]. simpl. etrans; [exact Hp|].
    apply insert_subseteq, not_elem_of_dom, is_fresh.
Qed.

Lemma perform_extends (a : action) (st st1 : state) :
  perform a st = Some st1 -> heap st ⊆ heap st1.
Proof.
  destruct a as [c|comps kw]; simpl.
  - destruct (Normal.parse_args c st) as [[a s]|] eqn:Hp; [|done].
    intros [= <-]. by eapply parse_args_extends.
  - destruct (Normal.marker_init comps kw st) as [[m s]|] eqn:Hm; [|done].
    intros [= <-]. by eapply marker_init_extends.
Qed.

Lemma perform_all_extends (l : list action) (st st1 : state) :
  perform_all l st = Some st1 -> heap st ⊆ heap st1.
Proof.
  revert st. induction l as [|a l IH]; intros st; simpl.
  - by intros [= <-].
  - destruct (perform a st) as [s|] eqn:Ha; [|done]. simpl. intros Hl.
    etrans; [by eapply perform_extends | by apply IH].
Qed.

(** ** Markers and the global metrics *)

Lemma marker_init_components
    (st : state) (g comps : list string) (kw : kwargs) :
  deref (_Metrics st) st = Some g ->
  exists m st1,
    Normal.marker_init comps kw st = Some (m, st1)
    /\ Normal.marker_components m st1 = Some (g ++ comps).
Proof.
  intros Hg. eexists _, _. split; [by apply marker_init_spec|].
  apply deref_alloc.
Qed.

(** C2, as the code has it.  A marker built with the component list
    [comps] holds the current global metrics followed by [comps], in
    order.  It holds exactly [comps] when the global list is empty, and it
    is free of duplicates when the global list and [comps] are and share
    no name. *)
Theorem marker_components_after_metrics
    (st : state) (g comps : list string) (kw : kwargs) :
  deref (_Metrics st) st = Some g ->
  exists m st1,
    Normal.marker_init comps kw st = Some (m, st1)
    /\ Normal.marker_components m st1 = Some (g ++ comps)
    /\ (Normal.marker_components m st1 = Some comps <-> g = [])
    /\ (NoDup g -> NoDup comps -> (forall x, x ∈ g -> x ∉ comps) ->
        forall l, Normal.marker_components m st1 = Some l -> NoDup l).
Proof.
  intros Hg.
  destruct (marker_init_components st g comps kw Hg) as (m & st1 & Hi & Hc).
  exists m, st1. split; [exact Hi|]. split; [exact Hc|]. split.
  - rewrite Hc. split.
    + intros [= Heq]. apply (f_equal length) in Heq.
      rewrite length_app in Heq. destruct g; [done | simpl in Heq; lia].
    + by intros ->.
  - intros Hdg Hdc Hdis l. rewrite Hc. intros [= <-].
    by apply NoDup_app.
Qed.

Lemma marker_components_after_metrics_witness :
  exists m st1,
    Normal.marker_init ["cpu_clock"] [] (boot default_settings) = Some (m, st1)
    /\ Normal.marker_components m st1 = Some (["wall_clock"] ++ ["cpu_clock"])
    /\ (Normal.marker_components m st1 = Some ["cpu_clock"] <-> ["wall_clock"] = [])
    /\ (NoDup ["wall_clock"] -> NoDup ["cpu_clock"] ->
        (forall x, x ∈ ["wall_clock"] -> x ∉ ["cpu_clock"]) ->
        forall l, Normal.marker_components m st1 = Some l -> NoDup l).
Proof.
  apply (marker_components_after_metrics
           (boot default_settings) ["wall_clock"] ["cpu_clock"] []).
  reflexivity.
Defined.

(** C2, as stated, fails right after loading: the marker built for
    [cpu_clock] also holds [wall_clock], and the one built for
    [wall_clock] holds it twice. *)
Lemma marker_components_include_metrics :
  NoDup ["cpu_clock"] /\ NoDup ["wall_clock"]
  /\ (st0 ← loaded default_settings;
      '(m, st1) ← Normal.marker_init ["cpu_clock"] [] st0;
      Normal.marker_components m st1) = Some ["wall_clock"; "cpu_clock"]
  /\ Some ["wall_clock"; "cpu_clock"] <> Some ["cpu_clock"]
  /\ (st0 ← loaded default_settings;
      '(m, st1) ← Normal.marker_init ["wall_clock"] [] st0;
      Normal.marker_components m st1) = Some ["wall_clock"; "wall_clock"]
  /\ ~ NoDup ["wall_clock"; "wall_clock"].
Proof.
  split; [apply NoDup_singleton|]. split; [apply NoDup_singleton|].
  split; [by vm_compute|]. split; [discriminate|]. split; [by vm_compute|].
  intros H. apply NoDup_cons in H as [H _]. apply H. by left.
Qed.

Lemma parse_args_sets_metrics (st : state) (c : Normal.cli) (ms : list string) :
  Normal.cli_disable_prof c = false ->
  Normal.cli_metrics c = Some ms ->
  exists a st1,
    Normal.parse_args c st = Some (a, st1)
    /\ enabled (timemory_settings st1) = true
    /\ global_components (timemory_settings st1) = join "," ms
    /\ deref (_Metrics st1) st1 = Some ms.
Proof.
  intros Hd Hm. unfold Normal.parse_args, Normal.parser_parse_args.
  rewrite Hm, Hd.
  set (st0 := set_initialised true st).
  destruct (alloc ms st0) as [p s1] eqn:Ha. simpl.
  assert (deref p s1 = Some ms) as Hp.
  { pose proof (deref_alloc ms st0) as H. by rewrite Ha in H. }
  unfold deref in *. simpl. rewrite Hp. simpl.
  destruct (Normal.cli_profile c); [|destruct (Normal.cli_trace c)]; simpl.
  - eexists _, _. split; [reflexivity|]. by simpl.
  - eexists _, _. split; [reflexivity|]. by simpl.
  - unfold Normal.marker_init, deref. simpl. rewrite Hp. simpl.
    eexists _, _. split; [reflexivity|]. simpl. split; [done|]. split; [done|].
    rewrite lookup_insert_ne; [exact Hp|].
    intros Heq. pose proof (is_fresh (dom (heap s1))) as Hf.
    rewrite Heq in Hf. apply Hf, elem_of_dom. by rewrite Hp.
Qed.

(** C7.  After [parse_args] has run with profiling enabled and the metrics
    [wall_clock cpu_clock], a marker built with an empty component list
    holds exactly [wall_clock] and [cpu_clock]. *)
Theorem parse_args_then_default_marker (st : state) (c : Normal.cli) :
  Normal.cli_disable_prof c = false ->
  Normal.cli_metrics c = Some ["wall_clock"; "cpu_clock"] ->
  exists a st1 m st2,
    Normal.parse_args c st = Some (a, st1)
    /\ enabled (timemory_settings st1) = true
    /\ Normal.marker_init [] [] st1 = Some (m, st2)
    /\ Normal.marker_components m st2 = Some ["wall_clock"; "cpu_clock"].
Proof.
  intros Hd Hm.
  destruct (parse_args_sets_metrics st c _ Hd Hm) as (a & st1 & Hp & He & _ & Hg).
  destruct (marker_init_components st1 _ [] [] Hg) as (m & st2 & Hi & Hc).
  exists a, st1, m, st2. rewrite app_nil_r in Hc. done.
Qed.

Lemma parse_args_then_default_marker_witness :
  exists a st1 m st2,
    Normal.parse_args scenario_cli (boot default_settings) = Some (a, st1)
    /\ enabled (timemory_settings st1) = true
    /\ Normal.marker_init [] [] st1 = Some (m, st2)
    /\ Normal.marker_components m st2 = Some ["wall_clock"; "cpu_clock"].
Proof.
  apply (parse_args_then_default_marker (boot default_settings) scenario_cli);
    reflexivity.
Defined.

(** C8.  Once a marker is built, whatever the module does later (parsing
    the options, which rebinds the global metrics list, or building other
    markers) leaves the component list of that marker as it was. *)
Theorem marker_components_frame
    (st st1 st2 : state) (comps : list string) (kw : kwargs) (m : marker)
    (later : list action) :
  Normal.marker_init comps kw st = Some (m, st1) ->
  perform_all later st1 = Some st2 ->
  exists l, Normal.marker_components m st1 = Some l
         /\ Normal.marker_components m st2 = Some l.
Proof.
  intros Hi Hl. apply marker_init_inv in Hi as (g & Hg & -> & ->).
  exists (g ++ comps).
  assert (Normal.marker_components
            (Marker (alloc (g ++ comps) st).1 kw) (alloc (g ++ comps) st).2
          = Some (g ++ comps)) as Hc by apply deref_alloc.
  split; [exact Hc|].
  unfold Normal.marker_components, deref in *.
  eapply lookup_weaken; [exact Hc|]. by eapply perform_all_extends.
Qed.

Lemma marker_components_frame_witness :
  (exists l, Normal.marker_components demo_marker demo_state1 = Some l
          /\ Normal.marker_components demo_marker demo_state2 = Some l)
  /\ deref (_Metrics demo_state1) demo_state1 = Some ["wall_clock"]
  /\ deref (_Metrics demo_state2) demo_state2 = Some ["user_clock"].
Proof.
  split; [|split; by vm_compute].
  apply (marker_components_frame (boot default_settings) demo_state1
           demo_state2 ["cpu_clock"] [] demo_marker [DoParseArgs demo_cli]).
  - reflexivity.
  - vm_compute. reflexivity.
Defined.

(** ** The dummy variant *)

(** C4.  In the dummy variant a timer built for any kind, [wall]
    included, reads [0.0] and counts no lap, and a function decorated with
    a marker behaves as the function itself: same result or same
    exception, same effect on the world, for all arguments. *)
Theorem fallback_is_inert :
  (forall dtype : value,
      exists t, Fallback.timer_init [dtype] [] = Ok t
        /\ Fallback.get t = VFloat 0 0
        /\ is_zero (Fallback.get t) = true
        /\ Fallback.laps t = VInt 0)
  /\ Fallback.timer_init [VStr "wall"] [] = Ok (Fallback.Timer VNone)
  /\ (forall t : Fallback.timer,
        Fallback.get t = VFloat 0 0 /\ Fallback.laps t = VInt 0)
  /\ (exists self, Fallback.marker_init [] [] = Ok self)
  /\ (forall (W : Type) (self : Fallback.marker) (f : callable W)
             (args : list value) (kw : kwargs) (w : W),
        Fallback.marker_call self f args kw w = f args kw w).
Proof.
  split; [intros dtype; exists (Fallback.Timer VNone); done|].
  split; [done|]. split; [done|]. split; [by eexists|].
  intros W self f args kw w. unfold Fallback.marker_call.
  by destruct (f args kw w) as [[r|e] w1].
Qed.

(** The dummy variant is reachable: with an engine whose component
    classes fail to import the module loads, and [marker] and [timer] are
    the dummy classes, while [profile] is a class derived from the
    engine's. *)
Lemma fallback_reachable :
  exists s, Load.run Load.broken_components = (Ok tt, s)
    /\ Load.names s !! "marker" = Some (Load.EClass Load.Dummy "marker" None)
    /\ Load.names s !! "timer" = Some (Load.EClass Load.Dummy "timer" None)
    /\ Load.names s !! "profile" =
       Some (Load.EClass Load.Dummy "profile" (Some "timemory.profiler.profile"))
    /\ Load.stdout s = ["cannot import name 'CudaEvent'"].
Proof. eexists. by vm_compute. Qed.

(** C5 fails on the code.  The dummy marker is built from no argument
    only: the call of the shipped example, a component list with a display
    mode, raises, while the engine-backed marker accepts it. *)
Theorem fallback_marker_rejects_arguments :
  (forall (args : list value) (kw : kwargs),
      is_ok (Fallback.marker_init args kw) = true <-> args = [] /\ kw = [])
  /\ Fallback.marker_init [VList ["wall_clock"; "cpu_clock"]]
                          [("mode", VStr "full")]
     = Raise (interp_error TypeError)
  /\ is_Some (Normal.marker_init ["wall_clock"; "cpu_clock"]
                                 [("mode", VStr "full")]
                                 (boot default_settings)).
Proof.
  split; [|split; [reflexivity|]].
  - intros args kw. destruct args, kw; simpl; split; try done; by intros [??].
  - rewrite (marker_init_spec _ _ _ ["wall_clock"]); [by eexists | reflexivity].
Qed.

(** ** Failures raised in the measured code *)

Section Propagation.
Context {U A : Type}.

Lemma fallback_exit_returns_none (self : Fallback.marker)
    (ty : option exc_type) (v : option exception) (tb : option (list string))
    (w : Fallback.world U) :
  (Fallback.marker_exit self ty v tb w).1 = Ok VNone
  /\ Fallback.app (Fallback.marker_exit self ty v tb w).2 = Fallback.app w.
Proof. unfold Fallback.marker_exit. by destruct ty, v, tb. Qed.

Lemma fallback_exit_appends (self : Fallback.marker)
    (ty : option exc_type) (v : option exception) (tb : option (list string))
    (w : Fallback.world U) :
  exists added,
    Fallback.stderr (Fallback.marker_exit self ty v tb w).2 =
    Fallback.stderr w ++ added.
Proof.
  unfold Fallback.marker_exit.
  destruct ty, v, tb; simpl; try (exists []; by rewrite app_nil_r).
  by eexists.
Qed.

(** X19.  In the dummy variant a failure raised in a region guarded by the
    marker, or in a function decorated with it, comes out as the very
    same exception.  [__exit__] returns [None] whatever it is given; it
    only adds to the error stream and leaves the application state as the
    body left it.  The decorated function leaves the world as the function
    left it. *)
Theorem fallback_failure_propagates :
  (forall (self : Fallback.marker)
          (body : Fallback.world U -> result A * Fallback.world U)
          (w w1 : Fallback.world U) (e : exception),
      body w = (Raise e, w1) ->
      exists w2,
        with_stmt (Fallback.marker_enter self) (Fallback.marker_exit self)
                  body w = (Raise e, w2)
        /\ Fallback.app w2 = Fallback.app w1
        /\ exists added, Fallback.stderr w2 = Fallback.stderr w1 ++ added)
  /\ (forall (self : Fallback.marker) ty v tb (w : Fallback.world U),
        (Fallback.marker_exit self ty v tb w).1 = Ok VNone)
  /\ (forall (self : Fallback.marker) (f : callable (Fallback.world U))
             (args : list value) (kw : kwargs)
             (w w1 : Fallback.world U) (e : exception),
        f args kw w = (Raise e, w1) ->
        Fallback.marker_call self f args kw w = (Raise e, w1)).
Proof.
  split; [|split].
  - intros self body w w1 e Hb. unfold with_stmt, Fallback.marker_enter.
    rewrite Hb.
    pose proof (fallback_exit_returns_none self (Some (exc_class e)) (Some e)
                  (Some (exc_frames e)) w1) as [Hr Ha].
    pose proof (fallback_exit_appends self (Some (exc_class e)) (Some e)
                  (Some (exc_frames e)) w1) as Hs.
    destruct (Fallback.marker_exit _ _ _ _ w1) as [r w2]. simpl in Hr, Ha, Hs.
    subst r. simpl. eauto.
  - intros. apply fallback_exit_returns_none.
  - intros self f args kw w w1 e Hf. unfold Fallback.marker_call.
    by rewrite Hf.
Qed.

End Propagation.

Lemma fallback_failure_propagates_witness :
  exists w2,
    with_stmt (Fallback.marker_enter Fallback.Marker)
              (Fallback.marker_exit Fallback.Marker)
              (fun w : Fallback.world nat =>
                 (@Raise value (Exc (UserError "ValueError") "boom" ["main"]),
                  Fallback.World (Fallback.stderr w) (S (Fallback.app w))))
              (Fallback.World [] 0)
    = (Raise (Exc (UserError "ValueError") "boom" ["main"]), w2)
    /\ Fallback.app w2 = 1
    /\ exists added, Fallback.stderr w2 = [] ++ added.
Proof.
  pose proof (@fallback_failure_propagates nat value) as (H & _ & _).
  apply (H Fallback.Marker
           (fun w => (Raise (Exc (UserError "ValueError") "boom" ["main"]),
                      Fallback.World (Fallback.stderr w) (S (Fallback.app w))))
           (Fallback.World [] 0) (Fallback.World [] 1)).
  reflexivity.
Defined.

(** [profile] and [trace] hand their arguments to the engine's classes as
    they are; a keyword given by the caller is not replaced. *)
Lemma profile_init_forwards (args : list value) (kw : kwargs) :
  profile_args (Normal.profile_init args kw) = args
  /\ profile_kwargs (Normal.profile_init args kw) = kw
  /\ trace_args (Normal.trace_init args kw) = args
  /\ trace_kwargs (Normal.trace_init args kw) = kw.
Proof. done. Qed.

(** ** Loading without the engine *)

(** C1 fails on the code.  When [import timemory] raises, the handler
    prints the message and binds the dummy [get_results], [finalize],
    [parse_args] and [marker], and then raises itself: the base class of
    the dummy [profile] is read from the name [timemory], which is not
    bound.  The module does not load; [profile], [trace] and [timer] are
    never bound and no default marker is stored. *)
Theorem load_without_engine_fails (w : Load.world) (e : exception) :
  Load.import_timemory w = Some e ->
  exists s,
    Load.run w = (Raise (interp_error NameError), s)
    /\ Load.stdout s = [exc_msg e]
    /\ Load.names s !! "marker" = Some (Load.EClass Load.Dummy "marker" None)
    /\ Load.names s !! "profile" = None
    /\ Load.names s !! "trace" = None
    /\ Load.names s !! "timer" = None
    /\ Load.builtins_dict s !! "mlperf_prof_record" = None
    /\ Load.all_inert s = false.
Proof.
  intros He.
  destruct (Load.run w) as [r s] eqn:Hr. exists s.
  unfold Load.run, Load.module_body, Load.try_branch in Hr.
  rewrite He in Hr. vm_compute in Hr.
  injection Hr as <- <-. by vm_compute.
Qed.

Lemma load_without_engine_fails_witness :
  exists s,
    Load.run Load.no_engine = (Raise (interp_error NameError), s)
    /\ Load.stdout s = ["No module named 'timemory'"]
    /\ Load.names s !! "marker" = Some (Load.EClass Load.Dummy "marker" None)
    /\ Load.names s !! "profile" = None
    /\ Load.names s !! "trace" = None
    /\ Load.names s !! "timer" = None
    /\ Load.builtins_dict s !! "mlperf_prof_record" = None
    /\ Load.all_inert s = false.
Proof.
  apply (load_without_engine_fails Load.no_engine
           (Exc ImportError "No module named 'timemory'" [])).
  reflexivity.
Defined.

(** With the engine installed the module loads and every public name is
    bound to the engine-backed definition. *)
Lemma load_with_engine :
  exists s, Load.run Load.full_engine = (Ok tt, s)
    /\ Load.names s !! "marker" =
       Some (Load.EClass Load.Engine "marker" (Some "timemory.util.marker"))
    /\ Load.names s !! "timer" = Some (Load.EClass Load.Engine "timer" None)
    /\ Load.builtins_dict s !! "mlperf_prof_record" =
       Some (Load.EInstance Load.Engine "marker")
    /\ Load.stdout s = [].
Proof. eexists. by vm_compute. Qed.

(** ** Whatever the installation, [profile] is never a dummy *)

Lemma frame_ret {A} (n : string) (a : A) : frame n (Load.ret a).
Proof. by intros s a' s1 [= _ <-]. Qed.

Lemma frame_raise {A} (n : string) (e : exception) : frame n (@Load.raise A e).
Proof. by intros s a s1. Qed.

Lemma frame_bind {A B} (n : string) (m : Load.load A) (k : A -> Load.load B) :
  frame n m -> (forall a, frame n (k a)) -> frame n (Load.bind m k).
Proof.
  intros Hm Hk s b s2. unfold Load.bind.
  destruct (m s) as [[a|e] s1] eqn:Hs; [|done].
  intros Hb. rewrite (Hk _ _ _ _ Hb). by eapply Hm.
Qed.

Lemma frame_bind_name (n n' : string) (e : Load.entity) :
  n' <> n -> frame n (Load.bind_name n' e).
Proof. intros Hne s a s1 [= _ <-]. simpl. by apply lookup_insert_ne. Qed.

Lemma frame_add_attrs (n : string) (a : gset string) :
  frame n (Load.add_attrs a).
Proof. by intros s x s1 [= _ <-]. Qed.

Lemma frame_print (n l : string) : frame n (Load.print l).
Proof. by intros s x s1 [= _ <-]. Qed.

Lemma frame_set_builtin (n k : string) (e : Load.entity) :
  frame n (Load.set_builtin k e).
Proof. by intros s x s1 [= _ <-]. Qed.

Lemma frame_lookup_name (n n' : string) : frame n (Load.lookup_name n').
Proof.
  intros s x s1. unfold Load.lookup_name.
  destruct (Load.names s !! n'); [by intros [= _ <-] | done].
Qed.

Lemma frame_getattr (n root path : string) : frame n (Load.getattr root path).
Proof.
  apply frame_bind; [apply frame_lookup_name|].
  intros _ s x s1. destruct (bool_decide _); [by intros [= _ <-] | done].
Qed.

Lemma frame_import (n : string) (o : option exception) (k : Load.load unit) :
  frame n k -> frame n (Load.import_ o k).
Proof. intros Hk. destruct o; [apply frame_raise | exact Hk]. Qed.

Lemma frame_new_marker (n : string) : frame n Load.new_marker.
Proof.
  apply frame_bind; [apply frame_lookup_name|].
  intros [| | | |[] cls base|]; simpl;
    first [apply frame_ret | apply frame_raise].
Qed.

Ltac frame_steps :=
  repeat first
    [ apply frame_bind_name; discriminate
    | apply frame_getattr
    | apply frame_add_attrs
    | apply frame_print
    | apply frame_set_builtin
    | apply frame_new_marker
    | apply frame_import
    | apply frame_bind; [|intros ?] ].

Lemma binds_skip {A B} (n : string) (Q : Load.entity -> Prop)
    (m : Load.load A) (k : A -> Load.load B) :
  (forall a, binds n Q (k a)) -> binds n Q (Load.bind m k).
Proof.
  intros Hk s b s2. unfold Load.bind.
  destruct (m s) as [[a|e] s1]; [apply Hk | done].
Qed.

Lemma binds_here {B} (n : string) (Q : Load.entity -> Prop) (e : Load.entity)
    (k : unit -> Load.load B) :
  Q e -> (forall u, frame n (k u)) -> binds n Q (Load.bind (Load.bind_name n e) k).
Proof.
  intros HQ Hk s b s2. unfold Load.bind, Load.bind_name.
  intros Hb. exists e. split; [|exact HQ].
  rewrite (Hk _ _ _ _ Hb). simpl. apply lookup_insert_eq.
Qed.

Lemma binds_then {A B} (n : string) (Q : Load.entity -> Prop)
    (m : Load.load A) (k : A -> Load.load B) :
  binds n Q m -> (forall a, frame n (k a)) -> binds n Q (Load.bind m k).
Proof.
  intros Hm Hk s b s2. unfold Load.bind.
  destruct (m s) as [[a|e] s1] eqn:Hs; [|done].
  intros Hb. rewrite (Hk _ _ _ _ Hb). by eapply Hm.
Qed.

Lemma binds_try {A} (n : string) (Q : Load.entity -> Prop)
    (body : Load.load A) (handler : exception -> Load.load A) :
  binds n Q body -> (forall e, binds n Q (handler e)) ->
  binds n Q (Load.try_except body handler).
Proof.
  intros Hb Hh s a s2. unfold Load.try_except.
  destruct (body s) as [[a'|e] s1] eqn:Hs.
  - intros [= <- <-]. by eapply Hb.
  - apply Hh.
Qed.

Ltac binds_steps :=
  repeat first
    [ apply binds_here; [reflexivity | intros ?; frame_steps]
    | apply binds_skip; intros ? ].

(** In every installation in which the module loads, the name [profile]
    is bound to a class derived from the engine's profiler, in the dummy
    branch as well: the public entities are never all inert. *)
Lemma loaded_profile_uses_engine (w : Load.world) (s : Load.module_state) :
  Load.run w = (Ok tt, s) ->
  Load.bound_inert s "profile" = false /\ Load.all_inert s = false.
Proof.
  intros Hr.
  assert (binds "profile" (fun e => Load.inert e = false) (Load.module_body w))
    as Hb.
  { unfold Load.module_body. apply binds_skip. intros _.
    apply binds_then; [|intros ?; frame_steps].
    apply binds_try; [|intros e]; unfold Load.try_branch, Load.except_branch;
      binds_steps. }
  destruct (Hb _ _ _ Hr) as (e & He & Hi).
  assert (Load.bound_inert s "profile" = false) as Hp
    by (unfold Load.bound_inert; by rewrite He).
  split; [exact Hp|].
  unfold Load.all_inert, Load.public_names. simpl. rewrite Hp.
  by rewrite !andb_false_r.
Qed.


(** ** What [parse_args] leaves behind *)

Lemma parser_parse_args_metrics (c : Normal.cli) (st : state) :
  match Normal.cli_metrics c with
  | None =>
      Normal.parser_parse_args c st =
        ((Normal.parser_parse_args c st).1, st)
      /\ Normal.metrics (Normal.parser_parse_args c st).1 = _Metrics st
  | Some l =>
      deref (Normal.metrics (Normal.parser_parse_args c st).1)
            (Normal.parser_parse_args c st).2 = Some l
  end.
Proof.
  unfold Normal.parser_parse_args. destruct (Normal.cli_metrics c) as [l|].
  - simpl. unfold deref. simpl. apply lookup_insert_eq.
  - done.
Qed.

Lemma parser_parse_args_fields (c : Normal.cli) (st : state) :
  let a := (Normal.parser_parse_args c st).1 in
  Normal.disable_prof a = Normal.cli_disable_prof c
  /\ Normal.want_profile a = Normal.cli_profile c
  /\ Normal.want_trace a = Normal.cli_trace c
  /\ Normal.perf_output_dir a = Normal.cli_perf_output_dir c
  /\ Normal.perf_output_mode a =
     default ["cout"; "text"] (Normal.cli_perf_output_mode c).
Proof.
  unfold Normal.parser_parse_args.
  by destruct (Normal.cli_metrics c) as [l|].
Qed.

Lemma parser_parse_args_rest (c : Normal.cli) (st : state) :
  let st1 := (Normal.parser_parse_args c st).2 in
  _Metrics st1 = _Metrics st
  /\ timemory_settings st1 = timemory_settings st
  /\ timemory_initialised st1 = timemory_initialised st
  /\ builtins st1 = builtins st.
Proof.
  unfold Normal.parser_parse_args.
  by destruct (Normal.cli_metrics c) as [l|].
Qed.

(** The shape of every run of [parse_args] that leaves profiling on. *)
Lemma parse_args_enabled_inv (c : Normal.cli) (st st1 : state) (a : Normal.args) :
  Normal.cli_disable_prof c = false ->
  Normal.parse_args c st = Some (a, st1) ->
  exists ms r,
    a = (Normal.parser_parse_args c (set_initialised true st)).1
    /\ _Metrics st1 = Normal.metrics a
    /\ deref (_Metrics st1) st1 = Some ms
    /\ match Normal.cli_metrics c with
       | Some l => ms = l
       | None => _Metrics st1 = _Metrics st /\ deref (_Metrics st) st = Some ms
       end
    /\ timemory_settings st1 = enabled_settings ms a (timemory_settings st)
    /\ timemory_initialised st1 = true
    /\ builtins st1 = <["mlperf_prof.record" := r]> (builtins st)
    /\ (if Normal.cli_profile c then r = RProfile (Profile [] [])
        else if Normal.cli_trace c then r = RTrace (Trace [] [])
        else exists m, r = RMarker m
                       /\ Normal.marker_components m st1 = Some ms
                       /\ marker_kwargs m = []).
Proof.
  intros Hd. unfold Normal.parse_args.
  pose proof (parser_parse_args_metrics c (set_initialised true st)) as Hm.
  pose proof (parser_parse_args_fields c (set_initialised true st)) as Hf.
  pose proof (parser_parse_args_rest c (set_initialised true st)) as Hr.
  destruct (Normal.parser_parse_args c (set_initialised true st)) as [a0 s1].
  simpl in Hm, Hf, Hr.
  destruct Hf as (Hf1 & Hf2 & Hf3 & Hf4 & Hf5).
  destruct Hr as (Hr1 & Hr2 & Hr3 & Hr4).
  rewrite Hf1, Hd. simpl.
  destruct (deref (Normal.metrics a0) (set_Metrics (Normal.metrics a0) s1))
    as [ms|] eqn:Hms; [|done].
  simpl. rewrite Hf2, Hf3.
  assert (match Normal.cli_metrics c with
          | Some l => ms = l
          | None => Normal.metrics a0 = _Metrics st
                    /\ deref (_Metrics st) st = Some ms
          end) as Hsrc.
  { destruct (Normal.cli_metrics c) as [l|].
    - unfold deref in *. simpl in Hms. congruence.
    - destruct Hm as [[= ->] Hm]. split; [exact Hm|].
      unfold deref in *. simpl in *. by rewrite <- Hm. }
  destruct (Normal.cli_profile c); [|destruct (Normal.cli_trace c)]; simpl.
  - intros [= <- <-]. exists ms, (RProfile (Profile [] [])). simpl.
    rewrite Hr2, Hr4. by repeat split.
  - intros [= <- <-]. exists ms, (RTrace (Trace [] [])). simpl.
    rewrite Hr2, Hr4. by repeat split.
  - unfold Normal.marker_init. simpl.
    unfold deref in Hms. simpl in Hms. unfold deref. simpl. rewrite Hms.
    simpl. intros [= <- <-].
    set (p := fresh (dom (heap s1))).
    assert (p <> Normal.metrics a0) as Hne.
    { intros Heq. pose proof (is_fresh (dom (heap s1))) as Hfr.
      fold p in Hfr. rewrite Heq in Hfr. apply Hfr, elem_of_dom.
      by rewrite Hms. }
    exists ms, (RMarker (Marker p [])). simpl. rewrite Hr2, Hr4.
    split; [done|]. split; [done|].
    split; [by rewrite lookup_insert_ne|].
    split; [exact Hsrc|]. split; [done|]. split; [done|]. split; [done|].
    exists (Marker p []). split; [done|]. split; [|done].
    unfold Normal.marker_components, deref. simpl.
    rewrite lookup_insert_eq. by rewrite app_nil_r.
Qed.

Lemma parse_args_disabled_run (c : Normal.cli) (st : state) :
  Normal.cli_disable_prof c = true ->
  exists a st1,
    Normal.parse_args c st = Some (a, st1)
    /\ timemory_settings st1 = disabled_settings (timemory_settings st)
    /\ builtins st1 = builtins st
    /\ timemory_initialised st1 = true
    /\ deref (_Metrics st1) st1 = Some []
    /\ heap st ⊆ heap st1.
Proof.
  intros Hd. unfold Normal.parse_args.
  pose proof (parser_parse_args_fields c (set_initialised true st)) as Hf.
  pose proof (parser_parse_args_rest c (set_initialised true st)) as Hr.
  pose proof (parser_parse_args_extends c (set_initialised true st)) as He.
  destruct (Normal.parser_parse_args c (set_initialised true st)) as [a0 s1].
  simpl in Hf, Hr, He.
  destruct Hf as (Hf1 & _). destruct Hr as (_ & Hr2 & Hr3 & Hr4).
  rewrite Hf1, Hd. simpl. eexists _, _. split; [reflexivity|]. simpl.
  rewrite Hr2, Hr4. split; [done|]. split; [done|]. split; [done|].
  split; [unfold deref; simpl; apply lookup_insert_eq|].
  etrans; [exact He|]. apply insert_subseteq, not_elem_of_dom, is_fresh.
Qed.

Lemma parse_args_total (c : Normal.cli) (st : state) (g : list string) :
  deref (_Metrics st) st = Some g ->
  exists a st1, Normal.parse_args c st = Some (a, st1).
Proof.
  intros Hg. destruct (Normal.cli_disable_prof c) eqn:Hd.
  { destruct (parse_args_disabled_run c st Hd) as (a & st1 & H & _). eauto. }
  destruct (Normal.cli_metrics c) as [l|] eqn:Hm.
  { destruct (parse_args_sets_metrics st c l Hd Hm) as (a & st1 & H & _). eauto. }
  unfold Normal.parse_args, Normal.parser_parse_args. rewrite Hm, Hd. simpl.
  unfold deref in *. simpl. rewrite Hg. simpl.
  destruct (Normal.cli_profile c); [|destruct (Normal.cli_trace c)]; simpl;
    try by eexists _, _.
  unfold Normal.marker_init, deref. simpl. rewrite Hg. simpl. by eexists _, _.
Qed.



(** X2.  With profiling left on, each of the five output switches of the
    engine is on exactly when its name is among the chosen output modes,
    that is [cout] and [text] alone when no mode is given; the output
    directory replaces the engine's only when one is given. *)
Theorem parse_args_output_settings (c : Normal.cli) (st : state) (g : list string) :
  Normal.cli_disable_prof c = false ->
  deref (_Metrics st) st = Some g ->
  exists a st1,
    Normal.parse_args c st = Some (a, st1)
    /\ enabled (timemory_settings st1) = true
    /\ (forall modes,
          modes = default ["cout"; "text"] (Normal.cli_perf_output_mode c) ->
          (text_output (timemory_settings st1) = true <-> "text" ∈ modes)
          /\ (json_output (timemory_settings st1) = true <-> "json" ∈ modes)
          /\ (cout_output (timemory_settings st1) = true <-> "cout" ∈ modes)
          /\ (plot_output (timemory_settings st1) = true <-> "plot" ∈ modes)
          /\ (flamegraph_output (timemory_settings st1) = true <->
              "flamegraph" ∈ modes))
    /\ (Normal.cli_perf_output_mode c = None ->
          text_output (timemory_settings st1) = true
          /\ cout_output (timemory_settings st1) = true
          /\ json_output (timemory_settings st1) = false
          /\ plot_output (timemory_settings st1) = false
          /\ flamegraph_output (timemory_settings st1) = false)
    /\ output_path (timemory_settings st1) =
       match Normal.cli_perf_output_dir c with
       | Some d => Some d
       | None => output_path (timemory_settings st)
       end.
Proof.
  intros Hd Hg.
  destruct (parse_args_total c st g Hg) as (a & st1 & Hp).
  exists a, st1. split; [exact Hp|].
  destruct (parse_args_enabled_inv c st st1 a Hd Hp)
    as (ms & r & Ha & _ & _ & _ & Hs & _).
  pose proof (parser_parse_args_fields c (set_initialised true st))
    as (_ & _ & _ & Hdir & Hmodes).
  simpl in Hdir, Hmodes. rewrite <- Ha in Hdir, Hmodes.
  rewrite Hs. unfold enabled_settings, Normal.has_mode. simpl.
  rewrite Hdir, Hmodes. split; [done|]. split; [|split; [|done]].
  - intros modes ->. by rewrite !bool_decide_eq_true.
  - intros ->. simpl. by vm_compute.
Qed.

Lemma parse_args_output_settings_witness :
  exists a st1,
    Normal.parse_args empty_cli (boot default_settings) = Some (a, st1)
    /\ text_output (timemory_settings st1) = true
    /\ cout_output (timemory_settings st1) = true
    /\ json_output (timemory_settings st1) = false.
Proof.
  destruct (parse_args_output_settings empty_cli (boot default_settings)
              ["wall_clock"] eq_refl eq_refl)
    as (a & st1 & Hp & _ & _ & Hdef & _).
  exists a, st1. split; [exact Hp|].
  destruct (Hdef eq_refl) as (Ht & Hc & Hj & _). done.
Defined.

(** X3.  With profiling left on, [parse_args] stores one recorder under
    the built-in name [mlperf_prof.record]: a profiler when [--profile] is
    given, else a tracer when [--trace] is given, else a marker holding
    the selected metrics.  Every other built-in name keeps its value, the
    name [mlperf_prof_record] written when the module was loaded
    included. *)
Theorem parse_args_recorder (c : Normal.cli) (st : state) (g : list string) :
  Normal.cli_disable_prof c = false ->
  deref (_Metrics st) st = Some g ->
  exists a st1 r,
    Normal.parse_args c st = Some (a, st1)
    /\ builtins st1 !! "mlperf_prof.record" = Some r
    /\ (forall k, k <> "mlperf_prof.record" ->
          builtins st1 !! k = builtins st !! k)
    /\ builtins st1 !! "mlperf_prof_record" = builtins st !! "mlperf_prof_record"
    /\ (Normal.cli_profile c = true -> r = RProfile (Profile [] []))
    /\ (Normal.cli_profile c = false -> Normal.cli_trace c = true ->
          r = RTrace (Trace [] []))
    /\ (Normal.cli_profile c = false -> Normal.cli_trace c = false ->
          exists m, r = RMarker m
            /\ Normal.marker_components m st1 = deref (_Metrics st1) st1).
Proof.
  intros Hd Hg.
  destruct (parse_args_total c st g Hg) as (a & st1 & Hp).
  destruct (parse_args_enabled_inv c st st1 a Hd Hp)
    as (ms & r & _ & _ & Hms & _ & _ & _ & Hb & Hr).
  exists a, st1, r. split; [exact Hp|]. rewrite Hb.
  split; [apply lookup_insert_eq|].
  split; [intros k Hk; by apply lookup_insert_ne|].
  split; [by apply lookup_insert_ne|].
  destruct (Normal.cli_profile c); [|destruct (Normal.cli_trace c)].
  - split; [done|]. split; discriminate.
  - split; [discriminate|]. split; [done|]. discriminate.
  - split; [discriminate|]. split; [discriminate|]. intros _ _.
    destruct Hr as (m & -> & Hc & _). exists m. by rewrite Hms.
Qed.

Lemma parse_args_recorder_witness :
  exists a st1 r,
    Normal.parse_args empty_cli (boot default_settings) = Some (a, st1)
    /\ builtins st1 !! "mlperf_prof.record" = Some r
    /\ builtins st1 !! "mlperf_prof_record" = None
    /\ exists m, r = RMarker m
         /\ Normal.marker_components m st1 = Some ["wall_clock"].
Proof.
  destruct (parse_args_recorder empty_cli (boot default_settings)
              ["wall_clock"] eq_refl eq_refl)
    as (a & st1 & r & Hp & Hr & _ & Hk & _ & _ & Hm).
  exists a, st1, r. split; [exact Hp|]. split; [exact Hr|].
  split; [exact Hk|].
  destruct (Hm eq_refl eq_refl) as (m & -> & Hc). exists m. split; [done|].
  rewrite Hc. clear -Hp. vm_compute in Hp. injection Hp as <- <-.
  reflexivity.
Defined.

(** X4.  With profiling left on, the selected metrics are the ones given
    with [--metrics], or the current global list (the same object) when the
    option is absent.  Both component settings of the engine are these
    names joined by commas, and a marker built afterwards holds them
    followed by its own components. *)
Theorem parse_args_selected_metrics
    (c : Normal.cli) (st : state) (g : list string) :
  Normal.cli_disable_prof c = false ->
  deref (_Metrics st) st = Some g ->
  exists a st1 ms,
    Normal.parse_args c st = Some (a, st1)
    /\ ms = default g (Normal.cli_metrics c)
    /\ deref (_Metrics st1) st1 = Some ms
    /\ (Normal.cli_metrics c = None -> _Metrics st1 = _Metrics st)
    /\ global_components (timemory_settings st1) = join "," ms
    /\ profiler_components (timemory_settings st1) = join "," ms
    /\ (forall comps kw, exists m st2,
          Normal.marker_init comps kw st1 = Some (m, st2)
          /\ Normal.marker_components m st2 = Some (ms ++ comps)).
Proof.
  intros Hd Hg.
  destruct (parse_args_total c st g Hg) as (a & st1 & Hp).
  destruct (parse_args_enabled_inv c st st1 a Hd Hp)
    as (ms & r & _ & _ & Hms & Hsrc & Hs & _).
  exists a, st1, ms. split; [exact Hp|].
  split.
  { destruct (Normal.cli_metrics c) as [l|]; simpl; [done|].
    destruct Hsrc as [_ Hsrc]. congruence. }
  split; [exact Hms|].
  split.
  { intros Hn. rewrite Hn in Hsrc. by destruct Hsrc. }
  rewrite Hs. split; [done|]. split; [done|].
  intros comps kw. by apply marker_init_components.
Qed.

Lemma parse_args_selected_metrics_witness :
  exists a st1 ms,
    Normal.parse_args empty_cli (boot default_settings) = Some (a, st1)
    /\ ms = ["wall_clock"]
    /\ deref (_Metrics st1) st1 = Some ms
    /\ global_components (timemory_settings st1) = "wall_clock".
Proof.
  destruct (parse_args_selected_metrics empty_cli (boot default_settings)
              ["wall_clock"] eq_refl eq_refl)
    as (a & st1 & ms & Hp & -> & Hm & _ & Hg & _).
  exists a, st1, ["wall_clock"]. done.
Defined.

(** X5.  Once a parse has disabled profiling, a later parse that leaves it
    on without naming metrics selects none: the default it falls back to
    is the emptied global list, and the component settings become the
    empty string. *)
Theorem parse_args_after_disable (c1 c2 : Normal.cli) (st : state) :
  Normal.cli_disable_prof c1 = true ->
  Normal.cli_disable_prof c2 = false ->
  Normal.cli_metrics c2 = None ->
  exists a1 st1 a2 st2,
    Normal.parse_args c1 st = Some (a1, st1)
    /\ Normal.parse_args c2 st1 = Some (a2, st2)
    /\ enabled (timemory_settings st2) = true
    /\ deref (_Metrics st2) st2 = Some []
    /\ global_components (timemory_settings st2) = ""
    /\ profiler_components (timemory_settings st2) = "".
Proof.
  intros Hd1 Hd2 Hm2.
  destruct (parse_args_disabled_run c1 st Hd1)
    as (a1 & st1 & Hp1 & _ & _ & _ & He & _).
  destruct (parse_args_total c2 st1 [] He) as (a2 & st2 & Hp2).
  destruct (parse_args_enabled_inv c2 st1 st2 a2 Hd2 Hp2)
    as (ms & r & _ & _ & Hms & Hsrc & Hs & _).
  rewrite Hm2 in Hsrc. destruct Hsrc as [_ Hsrc].
  assert (ms = []) as -> by congruence.
  exists a1, st1, a2, st2. rewrite Hs. done.
Qed.

Lemma parse_args_after_disable_witness :
  exists a1 st1 a2 st2,
    Normal.parse_args disable_cli (boot default_settings) = Some (a1, st1)
    /\ Normal.parse_args empty_cli st1 = Some (a2, st2)
    /\ enabled (timemory_settings st2) = true
    /\ deref (_Metrics st2) st2 = Some []
    /\ global_components (timemory_settings st2) = ""
    /\ profiler_components (timemory_settings st2) = "".
Proof.
  apply (parse_args_after_disable disable_cli empty_cli
           (boot default_settings)); reflexivity.
Defined.

(** ** More on timers *)

Lemma lower_ascii_idem (c : ascii) : lower_ascii (lower_ascii c) = lower_ascii c.
Proof. by destruct c as [[] [] [] [] [] [] [] []]. Qed.

Lemma lower_idem (s : string) : lower (lower s) = lower s.
Proof.
  induction s as [|c s IH]; [done|]. simpl. by rewrite lower_ascii_idem, IH.
Qed.

Lemma lower_length (s : string) : String.length (lower s) = String.length s.
Proof. induction s as [|c s IH]; [done|]. simpl. by rewrite IH. Qed.

Lemma startswith_length (s p : string) :
  startswith s p = true -> String.length p <= String.length s.
Proof.
  unfold startswith. revert s. induction p as [|a p IH]; intros s; simpl.
  - lia.
  - destruct s as [|b s]; [discriminate|]. simpl.
    destruct (Ascii.ascii_dec a b); [|discriminate].
    intros H. apply IH in H. simpl. lia.
Qed.

Section TimerObjects.
Context `{R : Registry}.

(** X6.  A timer that was built carries the label it was given, and its
    unit and display unit are those of the component selected by its
    kind. *)
Theorem timer_init_units (dtype label : string) (t : Normal.timer) :
  Normal.timer_init dtype label = Ok t ->
  exists c,
    startswith (lower dtype) (kind_of c) = true
    /\ Normal._obj t = (c, label)
    /\ Normal.units t = component_unit c
    /\ Normal.display_units t = component_display_unit c.
Proof.
  rewrite timer_init_first_match.
  destruct (first_prefix_match (lower dtype)) as [[k c]|] eqn:Hf; [|done].
  intros [= <-]. exists c. split; [|done].
  apply first_prefix_match_some. eauto.
Qed.

(** X7.  The kind of a timer is read without regard to case, and a kind
    string of fewer than three characters, the empty one included, is
    always refused. *)
Theorem timer_init_case_and_length (dtype label : string) :
  Normal.timer_init (lower dtype) label = Normal.timer_init dtype label
  /\ (String.length dtype < 3 ->
      Normal.timer_init dtype label = Raise (Exc RuntimeError "invalid type" [])).
Proof.
  split.
  - by rewrite !timer_init_first_match, lower_idem.
  - intros Hlen. rewrite timer_init_first_match.
    destruct (first_prefix_match (lower dtype)) as [[k c]|] eqn:Hf; [|done].
    exfalso.
    assert (startswith (lower dtype) (kind_of c) = true) as Hc
      by (apply first_prefix_match_some; eauto).
    apply startswith_length in Hc. rewrite lower_length in Hc.
    destruct c; simpl in Hc; lia.
Qed.

End TimerObjects.

Lemma timer_init_units_witness :
  exists c,
    startswith (lower "CPU time") (kind_of c) = true
    /\ Normal._obj (@Normal.make logging_registry CpuClock "io") = (c, "io")
    /\ Normal.units (@Normal.make logging_registry CpuClock "io") = 1%Z
    /\ Normal.display_units (@Normal.make logging_registry CpuClock "io") = "sec".
Proof.
  destruct (@timer_init_units logging_registry "CPU time" "io"
              (@Normal.make logging_registry CpuClock "io") eq_refl)
    as (c & Hc & Ho & Hu & Hd).
  exists c. split; [exact Hc|]. split; [exact Ho|]. split; [|exact Hd].
  rewrite Hu. reflexivity.
Defined.

Lemma timer_init_case_and_length_witness :
  @Normal.timer_init logging_registry "cp" "" =
  Raise (Exc RuntimeError "invalid type" []).
Proof.
  apply (@timer_init_case_and_length logging_registry "cp" ""). simpl. lia.
Defined.

(** ** More on the dummy variant *)

(** X8.  The dummy timer is built from exactly one argument, given by
    position or as [dtype]: no argument, a second (label) argument or any
    other keyword raises.  Whatever the argument is, the timer object is
    the same. *)
Theorem fallback_timer_init_arity (args : list value) (kw : kwargs) :
  (is_ok (Fallback.timer_init args kw) = true <->
     (length args = 1 /\ kw = []) \/
     (args = [] /\ exists v, kw = [("dtype", v)]))
  /\ (forall t, Fallback.timer_init args kw = Ok t -> t = Fallback.Timer VNone)
  /\ (is_ok (Fallback.timer_init args kw) = false ->
      Fallback.timer_init args kw = Raise (interp_error TypeError)).
Proof.
  unfold Fallback.timer_init.
  destruct args as [|v [|v' args]], kw as [|[k x] [|kv kw]]; simpl;
    try destruct (String.eqb_spec k "dtype") as [->|Hk]; simpl.
  all: split; [split|split].
  all: try (intros ? [= <-]; reflexivity).
  all: try discriminate.
  all: try reflexivity.
  all: try (intros _; first [left; split; reflexivity | right; split; eauto]).
  all: try (intros [[Hl Hq]|[Hl [v0 Hq]]]; simplify_eq/=; done).
Qed.

Section FallbackRegion.
Context {U A : Type}.

(** X10.  A region guarded by the dummy marker that ends normally yields
    the result of its body and the world its body left: the marker neither
    prints nor changes anything. *)
Theorem fallback_region_transparent (self : Fallback.marker)
    (body : Fallback.world U -> result A * Fallback.world U)
    (w w1 : Fallback.world U) (a : A) :
  body w = (Ok a, w1) ->
  with_stmt (Fallback.marker_enter self) (Fallback.marker_exit self) body w
  = (Ok (Some a), w1).
Proof.
  intros Hb. unfold with_stmt, Fallback.marker_enter. by rewrite Hb.
Qed.

End FallbackRegion.

Lemma fallback_region_transparent_witness :
  with_stmt (Fallback.marker_enter Fallback.Marker)
            (Fallback.marker_exit Fallback.Marker)
            (fun w : Fallback.world nat =>
               (Ok (VInt 55), Fallback.World (Fallback.stderr w) (S (Fallback.app w))))
            (Fallback.World [] 0)
  = (Ok (Some (VInt 55)), Fallback.World [] 1).
Proof.
  apply (@fallback_region_transparent nat value Fallback.Marker
           (fun w => (Ok (VInt 55),
                      Fallback.World (Fallback.stderr w) (S (Fallback.app w))))).
  reflexivity.
Defined.

(** ** The handler of the failed import *)

Ltac load_unfold :=
  unfold Load.run, Load.module_body, Load.try_except, Load.try_branch,
    Load.except_branch, Load.new_marker, Load.getattr, Load.import_,
    Load.bind, Load.lookup_name, Load.bind_name, Load.add_attrs, Load.print,
    Load.set_builtin, Load.ret, Load.raise, Load.empty_state;
  cbn [Load.names Load.attrs Load.stdout Load.builtins_dict].

Ltac load_lookups :=
  cbn [Load.names Load.attrs Load.stdout Load.builtins_dict];
  repeat first
    [ rewrite lookup_insert_eq
    | rewrite lookup_insert_ne by discriminate
    | rewrite lookup_empty ];
  cbn [Load.names Load.attrs Load.stdout Load.builtins_dict].

Ltac load_finish :=
  repeat split; intros; load_lookups; try done;
  try (unfold interp_error in *; discriminate);
  try match goal with
      | H : is_Some None /\ _ |- _ => destruct H as [[? ?] _]; discriminate
      | H : _ /\ _ /\ _ |- _ => destruct H as (_ & ? & ?); done
      | |- is_Some (Some _) => by eexists
      end.

(** X11.  The handler of the failed import always prints the message of
    the exception, once, and binds the dummy [get_results], [finalize],
    [parse_args] and [marker].  It ends normally exactly when the name
    [timemory] is bound and the engine's profiler and line profiler
    classes can be reached from it; it raises [NameError] exactly when
    [timemory] is not bound.  The dummy [timer] is bound only when it ends
    normally. *)
Theorem except_branch_outcome (e : exception) (s : Load.module_state) :
  exists r s1,
    Load.except_branch e s = (r, s1)
    /\ Load.stdout s1 = Load.stdout s ++ [exc_msg e]
    /\ Load.names s1 !! "get_results" =
       Some (Load.EFunction Load.Dummy "get_results")
    /\ Load.names s1 !! "finalize" = Some (Load.EFunction Load.Dummy "finalize")
    /\ Load.names s1 !! "parse_args" =
       Some (Load.EFunction Load.Dummy "parse_args")
    /\ Load.names s1 !! "marker" = Some (Load.EClass Load.Dummy "marker" None)
    /\ Load.builtins_dict s1 = Load.builtins_dict s
    /\ (r = Ok tt <->
          is_Some (Load.names s !! "timemory")
          /\ "timemory.profiler.profile" ∈ Load.attrs s
          /\ "timemory.line_profiler.LineProfiler" ∈ Load.attrs s)
    /\ (r = Raise (interp_error NameError) <-> Load.names s !! "timemory" = None)
    /\ (r = Ok tt ->
          Load.names s1 !! "timer" = Some (Load.EClass Load.Dummy "timer" None))
    /\ (r <> Ok tt -> Load.names s1 !! "timer" = Load.names s !! "timer").
Proof.
  load_unfold. load_lookups.
  destruct (Load.names s !! "timemory") as [t|] eqn:Ht;
    cbn [Load.names Load.attrs Load.stdout Load.builtins_dict].
  2: { eexists _, _. split; [reflexivity|]. load_finish. }
  destruct (bool_decide ("timemory.profiler.profile" ∈ Load.attrs s)) eqn:Hp;
    cbn [Load.names Load.attrs Load.stdout Load.builtins_dict].
  2: { apply bool_decide_eq_false in Hp.
       eexists _, _. split; [reflexivity|]. load_finish. }
  apply bool_decide_eq_true in Hp. load_lookups. rewrite Ht.
  cbn [Load.names Load.attrs Load.stdout Load.builtins_dict].
  destruct (bool_decide ("timemory.line_profiler.LineProfiler" ∈ Load.attrs s))
    eqn:Hl; cbn [Load.names Load.attrs Load.stdout Load.builtins_dict].
  2: { apply bool_decide_eq_false in Hl.
       eexists _, _. split; [reflexivity|]. load_finish. }
  apply bool_decide_eq_true in Hl.
  eexists _, _. split; [reflexivity|]. load_finish.
Qed.

(** ** The two ways the module loads *)

Lemma keeps_ret {A X} (f : Load.module_state -> X) (a : A) :
  keeps f (Load.ret a).
Proof. by intros s r s1 [= _ <-]. Qed.

Lemma keeps_raise {A X} (f : Load.module_state -> X) (e : exception) :
  keeps f (@Load.raise A e).
Proof. by intros s r s1 [= _ <-]. Qed.

Lemma keeps_bind {A B X} (f : Load.module_state -> X)
    (m : Load.load A) (k : A -> Load.load B) :
  keeps f m -> (forall a, keeps f (k a)) -> keeps f (Load.bind m k).
Proof.
  intros Hm Hk s r s2. unfold Load.bind.
  destruct (m s) as [[a|e] s1] eqn:Hs.
  - intros Hb. rewrite (Hk _ _ _ _ Hb). by eapply Hm.
  - intros [= _ <-]. by eapply Hm.
Qed.

Lemma keeps_lookup_name {X} (f : Load.module_state -> X) (n : string) :
  keeps f (Load.lookup_name n).
Proof.
  intros s r s1. unfold Load.lookup_name.
  by destruct (Load.names s !! n); intros [= _ <-].
Qed.

Lemma keeps_new_marker {X} (f : Load.module_state -> X) :
  keeps f Load.new_marker.
Proof.
  apply keeps_bind; [apply keeps_lookup_name|].
  intros [| | | |[] cls base|]; simpl;
    first [apply keeps_ret | apply keeps_raise].
Qed.

Lemma keeps_import {X} (f : Load.module_state -> X)
    (o : option exception) (k : Load.load unit) :
  keeps f k -> keeps f (Load.import_ o k).
Proof. intros Hk. destruct o; [apply keeps_raise | exact Hk]. Qed.

Lemma keeps_stdout_bind_name (n : string) (e : Load.entity) :
  keeps Load.stdout (Load.bind_name n e).
Proof. by intros s r s1 [= _ <-]. Qed.

Lemma keeps_stdout_add_attrs (a : gset string) :
  keeps Load.stdout (Load.add_attrs a).
Proof. by intros s r s1 [= _ <-]. Qed.

Lemma keeps_stdout_getattr (root path : string) :
  keeps Load.stdout (Load.getattr root path).
Proof.
  apply keeps_bind; [apply keeps_lookup_name|].
  intros _ s r s1. by destruct (bool_decide _); intros [= _ <-].
Qed.

Lemma keeps_builtins_bind_name (n : string) (e : Load.entity) :
  keeps Load.builtins_dict (Load.bind_name n e).
Proof. by intros s r s1 [= _ <-]. Qed.

Lemma keeps_builtins_add_attrs (a : gset string) :
  keeps Load.builtins_dict (Load.add_attrs a).
Proof. by intros s r s1 [= _ <-]. Qed.

Lemma keeps_builtins_print (l : string) :
  keeps Load.builtins_dict (Load.print l).
Proof. by intros s r s1 [= _ <-]. Qed.

Lemma keeps_builtins_getattr (root path : string) :
  keeps Load.builtins_dict (Load.getattr root path).
Proof.
  apply keeps_bind; [apply keeps_lookup_name|].
  intros _ s r s1. by destruct (bool_decide _); intros [= _ <-].
Qed.

Ltac keeps_steps :=
  repeat first
    [ apply keeps_stdout_bind_name
    | apply keeps_stdout_add_attrs
    | apply keeps_stdout_getattr
    | apply keeps_builtins_bind_name
    | apply keeps_builtins_add_attrs
    | apply keeps_builtins_print
    | apply keeps_builtins_getattr
    | apply keeps_new_marker
    | apply keeps_import
    | apply keeps_bind; [|intros ?] ].

Lemma try_branch_silent (w : Load.world) :
  keeps Load.stdout (Load.try_branch w)
  /\ keeps Load.builtins_dict (Load.try_branch w).
Proof. split; unfold Load.try_branch; keeps_steps. Qed.

Lemma except_branch_prints (e : exception) (s s1 : Load.module_state)
    (r : result unit) :
  Load.except_branch e s = (r, s1) ->
  Load.stdout s1 = Load.stdout s ++ [exc_msg e]
  /\ Load.builtins_dict s1 = Load.builtins_dict s.
Proof.
  intros He. split.
  - unfold Load.except_branch in He. unfold Load.bind at 1 in He.
    unfold Load.print at 1 in He.
    match type of He with
    | ?m ?s0 = _ => assert (keeps Load.stdout m) as Hk by keeps_steps
    end.
    by rewrite (Hk _ _ _ He).
  - assert (keeps Load.builtins_dict (Load.except_branch e)) as Hk
      by (unfold Load.except_branch; keeps_steps).
    by apply (Hk _ _ _ He).
Qed.

Lemma run_unfold (w : Load.world) :
  Load.run w =
  match Load.try_branch w after_metrics with
  | (Ok _, s1) => module_tail s1
  | (Raise e, s1) =>
      match Load.except_branch e s1 with
      | (Ok _, s2) => module_tail s2
      | (Raise e', s2) => (Raise e', s2)
      end
  end.
Proof.
  unfold Load.run, Load.module_body, module_tail, after_metrics.
  cbv beta delta [Load.bind Load.try_except Load.bind_name Load.empty_state].
  cbn [Load.names Load.attrs Load.stdout Load.builtins_dict].
  destruct (Load.try_branch w _) as [[[]|e] s1]; [reflexivity|].
  destruct (Load.except_branch e s1) as [[[]|e'] s2]; reflexivity.
Qed.

Lemma module_tail_run (s : Load.module_state) (o : Load.origin)
    (cls : string) (b : option string) :
  Load.names s !! "marker" = Some (Load.EClass o cls b) ->
  module_tail s =
    (Ok tt,
     {| Load.names := <["_Prof" := Load.EInstance o cls]> (Load.names s);
        Load.attrs := Load.attrs s;
        Load.stdout := Load.stdout s;
        Load.builtins_dict :=
          <["mlperf_prof_record" := Load.EInstance o cls]>
            (Load.builtins_dict s) |}).
Proof.
  intros Hm. unfold module_tail, Load.new_marker, Load.bind at 1 2.
  unfold Load.lookup_name. rewrite Hm. by destruct o.
Qed.

Lemma binds_last (n : string) (Q : Load.entity -> Prop) (e : Load.entity) :
  Q e -> binds n Q (Load.bind_name n e).
Proof.
  intros HQ s a s1 [= _ <-]. exists e. split; [|exact HQ].
  simpl. apply lookup_insert_eq.
Qed.

Ltac binds_all :=
  repeat first
    [ apply binds_last; reflexivity
    | apply binds_here; [reflexivity | intros ?; frame_steps]
    | apply binds_skip; intros ? ].

Lemma try_branch_names (w : Load.world) :
  binds "get_results" (eq (Load.EFunction Load.Engine "get_results"))
        (Load.try_branch w)
  /\ binds "finalize" (eq (Load.EFunction Load.Engine "finalize"))
           (Load.try_branch w)
  /\ binds "parse_args" (eq (Load.EFunction Load.Engine "parse_args"))
           (Load.try_branch w)
  /\ binds "marker"
           (eq (Load.EClass Load.Engine "marker" (Some "timemory.util.marker")))
           (Load.try_branch w)
  /\ binds "profile"
           (eq (Load.EClass Load.Engine "profile"
                  (Some "timemory.profiler.profile")))
           (Load.try_branch w)
  /\ binds "trace"
           (eq (Load.EClass Load.Engine "trace"
                  (Some "timemory.line_profiler.LineProfiler")))
           (Load.try_branch w)
  /\ binds "timer" (eq (Load.EClass Load.Engine "timer" None))
           (Load.try_branch w).
Proof. repeat split; unfold Load.try_branch; binds_all. Qed.

Lemma except_branch_names (e : exception) :
  binds "get_results" (eq (Load.EFunction Load.Dummy "get_results"))
        (Load.except_branch e)
  /\ binds "finalize" (eq (Load.EFunction Load.Dummy "finalize"))
           (Load.except_branch e)
  /\ binds "parse_args" (eq (Load.EFunction Load.Dummy "parse_args"))
           (Load.except_branch e)
  /\ binds "marker" (eq (Load.EClass Load.Dummy "marker" None))
           (Load.except_branch e)
  /\ binds "profile"
           (eq (Load.EClass Load.Dummy "profile"
                  (Some "timemory.profiler.profile")))
           (Load.except_branch e)
  /\ binds "trace"
           (eq (Load.EClass Load.Dummy "trace"
                  (Some "timemory.line_profiler.LineProfiler")))
           (Load.except_branch e)
  /\ binds "timer" (eq (Load.EClass Load.Dummy "timer" None))
           (Load.except_branch e).
Proof. repeat split; unfold Load.except_branch; binds_all. Qed.


Lemma try_branch_ok_names (w : Load.world) (s0 s1 : Load.module_state) :
  Load.try_branch w s0 = (Ok tt, s1) -> branch_names Load.Engine s1.
Proof.
  intros HT.
  destruct (try_branch_names w) as (B1 & B2 & B3 & B4 & B5 & B6 & B7).
  destruct (B1 _ _ _ HT) as (x1 & H1 & <-).
  destruct (B2 _ _ _ HT) as (x2 & H2 & <-).
  destruct (B3 _ _ _ HT) as (x3 & H3 & <-).
  destruct (B4 _ _ _ HT) as (x4 & H4 & <-).
  destruct (B5 _ _ _ HT) as (x5 & H5 & <-).
  destruct (B6 _ _ _ HT) as (x6 & H6 & <-).
  destruct (B7 _ _ _ HT) as (x7 & H7 & <-).
  repeat split; try done. by eexists.
Qed.

Lemma except_branch_ok_names (e : exception) (s1 s2 : Load.module_state) :
  Load.except_branch e s1 = (Ok tt, s2) -> branch_names Load.Dummy s2.
Proof.
  intros HE.
  destruct (except_branch_names e) as (B1 & B2 & B3 & B4 & B5 & B6 & B7).
  destruct (B1 _ _ _ HE) as (x1 & H1 & <-).
  destruct (B2 _ _ _ HE) as (x2 & H2 & <-).
  destruct (B3 _ _ _ HE) as (x3 & H3 & <-).
  destruct (B4 _ _ _ HE) as (x4 & H4 & <-).
  destruct (B5 _ _ _ HE) as (x5 & H5 & <-).
  destruct (B6 _ _ _ HE) as (x6 & H6 & <-).
  destruct (B7 _ _ _ HE) as (x7 & H7 & <-).
  repeat split; try done. by eexists.
Qed.



Lemma load_module_unfold (i : installation) :
  load_module i =
  match preamble i with
  | Some e => (Raise e, Load.empty_state)
  | None =>
      match Load.try_branch (site i) after_metrics with
      | (Ok _, s1) => module_tail_at i s1
      | (Raise e, s1) =>
          match Load.except_branch e s1 with
          | (Ok _, s2) => module_tail_at i s2
          | (Raise e', s2) => (Raise e', s2)
          end
      end
  end.
Proof.
  unfold load_module, module_at, after_metrics.
  destruct (preamble i) as [e0|]; [reflexivity|].
  cbv beta iota delta [Load.bind Load.try_except Load.bind_name Load.import_
                       Load.ret Load.empty_state].
  cbn [Load.names Load.attrs Load.stdout Load.builtins_dict].
  destruct (Load.try_branch (site i) _) as [[[]|e] s1]; [reflexivity|].
  destruct (Load.except_branch e s1) as [[[]|e'] s2]; reflexivity.
Qed.

Lemma module_tail_at_run (i : installation) (s : Load.module_state)
    (o : Load.origin) (cls : string) (b : option string) :
  Load.names s !! "marker" = Some (Load.EClass o cls b) ->
  module_tail_at i s =
    match o, engine_marker i with
    | Load.Engine, Some e => (Raise e, s)
    | _, _ =>
        (Ok tt,
         {| Load.names := <["_Prof" := Load.EInstance o cls]> (Load.names s);
            Load.attrs := Load.attrs s;
            Load.stdout := Load.stdout s;
            Load.builtins_dict :=
              <["mlperf_prof_record" := Load.EInstance o cls]>
                (Load.builtins_dict s) |})
    end.
Proof.
  intros Hm. unfold module_tail_at, new_marker_at, Load.bind at 1 2.
  unfold Load.lookup_name. rewrite Hm.
  destruct o; [destruct (engine_marker i)|]; reflexivity.
Qed.

(** With complete imports above the [try] statement and an engine whose
    marker can be built, the module from its first line is
    [Load.module_body]. *)
Lemma load_module_run (i : installation) :
  preamble i = None -> engine_marker i = None ->
  load_module i = Load.run (site i).
Proof.
  intros Hp He. rewrite load_module_unfold, run_unfold, Hp.
  assert (forall s, module_tail_at i s = module_tail s) as Ht.
  { intros s. unfold module_tail_at, module_tail, new_marker_at,
      Load.new_marker. rewrite He. reflexivity. }
  destruct (Load.try_branch (site i) after_metrics) as [[[]|e] s1]; [apply Ht|].
  destruct (Load.except_branch e s1) as [[[]|e'] s2]; [apply Ht | reflexivity].
Qed.



(** ** The example program *)

Lemma fibonacci_small (n : Z) : (n < 2)%Z -> fibonacci n = n.
Proof.
  intros Hn. rewrite fibonacci_equation_1.
  destruct (Z_lt_dec n 2); simpl; [reflexivity | lia].
Qed.

Lemma fibonacci_step (n : Z) :
  (2 <= n)%Z -> fibonacci n = (fibonacci (n - 1) + fibonacci (n - 2))%Z.
Proof.
  intros Hn. rewrite fibonacci_equation_1.
  destruct (Z_lt_dec n 2); simpl; [lia | reflexivity].
Qed.

Lemma fibonacci_pair (k : nat) :
  fibonacci (Z.of_nat k) = (fib_pair k).1
  /\ fibonacci (Z.of_nat (S k)) = (fib_pair k).2.
Proof.
  induction k as [|k [IH1 IH2]].
  - split; by rewrite fibonacci_small.
  - simpl fib_pair. destruct (fib_pair k) as [a b]. simpl in *.
    split; [exact IH2|].
    rewrite fibonacci_step by lia.
    replace (Z.of_nat (S (S k)) - 1)%Z with (Z.of_nat (S k)) by lia.
    replace (Z.of_nat (S (S k)) - 2)%Z with (Z.of_nat k) by lia.
    rewrite IH1, IH2. lia.
Qed.

Lemma fib_pair_bounds (k : nat) :
  (0 <= (fib_pair k).1 <= (fib_pair k).2)%Z.
Proof.
  induction k as [|k IH]; [simpl; lia|].
  simpl fib_pair. destruct (fib_pair k) as [a b]. simpl in *. lia.
Qed.

(** X13.  [fibonacci] returns its argument for every integer below 2,
    the negative ones included.  From 0 on its values are not negative,
    and from 1 on they never decrease. *)
Theorem fibonacci_small_and_monotone :
  (forall n, (n < 2)%Z -> fibonacci n = n)
  /\ (forall n, (0 <= n)%Z -> (0 <= fibonacci n)%Z)
  /\ (forall n m, (1 <= n <= m)%Z -> (fibonacci n <= fibonacci m)%Z).
Proof.
  split; [exact fibonacci_small|].
  assert (forall k, (0 <= fibonacci (Z.of_nat k)
                     <= fibonacci (Z.of_nat (S k)))%Z) as Hk.
  { intros k. destruct (fibonacci_pair k) as [-> ->].
    apply fib_pair_bounds. }
  split.
  - intros n Hn. rewrite <- (Z2Nat.id n) by lia. apply Hk.
  - intros n m [Hn Hm].
    rewrite <- (Z2Nat.id n), <- (Z2Nat.id m) by lia.
    assert (Z.to_nat n <= Z.to_nat m) as Hle by lia.
    induction Hle as [|j Hj IH]; [lia|].
    etrans; [exact IH|]. apply Hk.
Qed.

(** X14.  On the natural numbers [fibonacci] computes the Fibonacci
    numbers, as the iteration on a pair does; the call of the example,
    [fibonacci(10)], yields 55. *)
Theorem fibonacci_is_fib :
  (forall k : nat, fibonacci (Z.of_nat k) = fib_iter k)
  /\ fibonacci 10 = 55%Z.
Proof.
  assert (forall k : nat, fibonacci (Z.of_nat k) = fib_iter k) as H
    by (intros k; apply fibonacci_pair).
  split; [exact H|]. apply (H 10).
Qed.

Lemma marker_init_keeps_global (comps : list string) (kw : kwargs)
    (st st1 : state) (m : marker) (g : list string) :
  Normal.marker_init comps kw st = Some (m, st1) ->
  deref (_Metrics st) st = Some g ->
  _Metrics st1 = _Metrics st
  /\ timemory_settings st1 = timemory_settings st
  /\ builtins st1 = builtins st
  /\ deref (_Metrics st1) st1 = Some g.
Proof.
  intros Hi Hg. pose proof (marker_init_extends _ _ _ _ _ Hi) as Hext.
  apply marker_init_inv in Hi as (g' & _ & _ & ->).
  split; [done|]. split; [done|]. split; [done|].
  unfold deref in *. rewrite alloc_Metrics.
  by eapply lookup_weaken.
Qed.

(** X15.  The marker that decorates [main] in the example is built when
    the example is loaded, before the options are parsed.  It holds
    [wall_clock] twice and [cpu_clock], with the display mode it was
    given, and a parse that returns afterwards leaves that list as it is,
    whatever the command line, [--disable-prof] included. *)
Theorem example_main_marker (s0 : settings) :
  exists st0 m st1,
    loaded s0 = Some st0
    /\ Normal.marker_init ["wall_clock"; "cpu_clock"] [("mode", VStr "full")]
                          st0 = Some (m, st1)
    /\ marker_kwargs m = [("mode", VStr "full")]
    /\ Normal.marker_components m st1 =
       Some ["wall_clock"; "wall_clock"; "cpu_clock"]
    /\ (forall c a st2,
          Normal.parse_args c st1 = Some (a, st2) ->
          Normal.marker_components m st2 =
          Some ["wall_clock"; "wall_clock"; "cpu_clock"]).
Proof.
  assert (deref (_Metrics (boot s0)) (boot s0) = Some ["wall_clock"]) as Hb
    by reflexivity.
  destruct (marker_init_components (boot s0) _ [] [] Hb) as (p & stp & Hp & _).
  destruct (marker_init_keeps_global _ _ _ _ _ _ Hp Hb) as (_ & _ & _ & Hgp).
  set (st0 := set_builtin "mlperf_prof_record" (RMarker p) stp).
  assert (loaded s0 = Some st0) as Hl by (unfold loaded; by rewrite Hp).
  assert (deref (_Metrics st0) st0 = Some ["wall_clock"]) as Hg by exact Hgp.
  destruct (marker_init_components st0 _ ["wall_clock"; "cpu_clock"]
              [("mode", VStr "full")] Hg) as (m & st1 & Hm & Hc).
  exists st0, m, st1. split; [done|]. split; [done|].
  split.
  { by apply marker_init_inv in Hm as (g & _ & -> & _). }
  split; [done|].
  intros c a st2 Hpa.
  unfold Normal.marker_components, deref in *.
  eapply lookup_weaken; [exact Hc|]. by eapply parse_args_extends.
Qed.

(** ** When the engine-backed module is obtained *)

Ltac world_eval :=
  cbn [Load.import_timemory Load.import_component Load.import_profiler
       Load.import_line_profiler Load.import_json Load.timemory_attrs
       Load.profiler_attrs Load.line_profiler_attrs
       Load.names Load.attrs Load.stdout Load.builtins_dict];
  load_lookups.

Lemma try_branch_ok_iff (w : Load.world) :
  (exists s1, Load.try_branch w after_metrics = (Ok tt, s1)) <-> engine_ready w.
Proof.
  destruct w as [i1 i2 i3 i4 i5 ta pa la].
  unfold engine_ready, engine_attrs, after_metrics. simpl.
  load_unfold. world_eval.
  destruct i1 as [e1|]; world_eval;
    [split; [by intros [? ?] | by intros [? _]]|].
  destruct i2 as [e2|]; world_eval;
    [split; [by intros [? ?] | by intros (_ & ? & _)]|].
  destruct i3 as [e3|]; world_eval;
    [split; [by intros [? ?] | by intros (_ & _ & ? & _)]|].
  destruct i4 as [e4|]; world_eval;
    [split; [by intros [? ?] | by intros (_ & _ & _ & ? & _)]|].
  destruct i5 as [e5|]; world_eval;
    [split; [by intros [? ?] | by intros (_ & _ & _ & _ & ? & _)]|].
  rewrite (left_id_L ∅ (∪) ta).
  destruct (bool_decide ("timemory.util.marker" ∈ ta ∪ pa ∪ la)) eqn:H1;
    [apply bool_decide_eq_true in H1 | apply bool_decide_eq_false in H1];
    world_eval;
    [|split; [by intros [? ?] | by intros (_ & _ & _ & _ & _ & ? & _)]].
  destruct (bool_decide ("timemory.profiler.profile" ∈ ta ∪ pa ∪ la)) eqn:H2;
    [apply bool_decide_eq_true in H2 | apply bool_decide_eq_false in H2];
    world_eval;
    [|split; [by intros [? ?] | by intros (_ & _ & _ & _ & _ & _ & ? & _)]].
  destruct (bool_decide ("timemory.line_profiler.LineProfiler" ∈ ta ∪ pa ∪ la))
    eqn:H3;
    [apply bool_decide_eq_true in H3 | apply bool_decide_eq_false in H3];
    world_eval;
    [|split; [by intros [? ?] | by intros (_ & _ & _ & _ & _ & _ & _ & ?)]].
  split; [done | by eexists].
Qed.

(** X16.  The module loads from its first line without printing anything
    exactly in the installations where the imports above the [try]
    statement succeed, the engine is complete ([timemory], its component
    classes, its two profilers and [json] import, and the three classes
    the module derives from can be reached from the name [timemory]) and
    the engine builds a marker without argument. *)
Theorem load_module_silent_iff (i : installation) :
  (exists s, load_module i = (Ok tt, s) /\ Load.stdout s = [])
  <-> preamble i = None /\ engine_ready (site i) /\ engine_marker i = None.
Proof.
  pose proof (try_branch_silent (site i)) as [Hso _].
  rewrite load_module_unfold. split.
  - intros (s & Hr & Ho).
    destruct (preamble i) as [e0|]; [done|]. split; [done|].
    destruct (Load.try_branch (site i) after_metrics) as [[[]|e] s1] eqn:HT.
    + split; [apply try_branch_ok_iff; eauto|].
      pose proof (try_branch_ok_names _ _ _ HT) as (_ & _ & _ & [base Hm] & _).
      rewrite (module_tail_at_run _ _ _ _ _ Hm) in Hr.
      by destruct (engine_marker i).
    + exfalso.
      destruct (Load.except_branch e s1) as [[[]|e'] s2] eqn:HE; [|done].
      pose proof (except_branch_prints _ _ _ _ HE) as [Hp _].
      pose proof (except_branch_ok_names _ _ _ HE) as (_ & _ & _ & [base Hm] & _).
      rewrite (module_tail_at_run _ _ _ _ _ Hm) in Hr. injection Hr as <-.
      simpl in Ho. rewrite Hp in Ho. by destruct (Load.stdout s1).
  - intros (-> & Hw & Hem). apply try_branch_ok_iff in Hw as [s1 HT].
    pose proof (try_branch_ok_names _ _ _ HT) as (_ & _ & _ & [base Hm] & _).
    rewrite HT, (module_tail_at_run _ _ _ _ _ Hm), Hem.
    eexists. split; [reflexivity|]. simpl. by rewrite (Hso _ _ _ HT).
Qed.

(** ** Markers and the store *)

(** X17.  Building a marker changes nothing the module shares: the global
    metrics name the same list, the engine settings and the built-in
    names are as before, and every list object that existed keeps its
    contents.  The list of the new marker is an object that did not exist
    before. *)
Theorem marker_init_frame (comps : list string) (kw : kwargs)
    (st st1 : state) (m : marker) :
  Normal.marker_init comps kw st = Some (m, st1) ->
  _Metrics st1 = _Metrics st
  /\ timemory_settings st1 = timemory_settings st
  /\ timemory_initialised st1 = timemory_initialised st
  /\ builtins st1 = builtins st
  /\ (forall p l, heap st !! p = Some l -> heap st1 !! p = Some l)
  /\ heap st !! components m = None
  /\ dom (heap st1) = dom (heap st) ∪ {[components m]}.
Proof.
  intros Hi. pose proof (marker_init_extends _ _ _ _ _ Hi) as Hext.
  apply marker_init_inv in Hi as (g & Hg & -> & ->).
  split; [done|]. split; [done|]. split; [done|]. split; [done|].
  split; [intros p l Hp; by eapply lookup_weaken|].
  split; [apply alloc_fresh|].
  simpl. rewrite dom_insert_L. apply (comm_L (∪)).
Qed.

Lemma marker_init_frame_witness :
  _Metrics demo_state1 = _Metrics (boot default_settings)
  /\ heap (boot default_settings) !! components demo_marker = None
  /\ heap demo_state1 !! 1%positive = Some ["wall_clock"].
Proof.
  destruct (marker_init_frame ["cpu_clock"] [] (boot default_settings)
              demo_state1 demo_marker eq_refl)
    as (Hm & _ & _ & _ & Hk & Hf & _).
  split; [exact Hm|]. split; [exact Hf|]. apply Hk. reflexivity.
Defined.

(** ** The profiler classes of a loaded module *)

(** X18.  Whenever the module loads, in the handler's variant as well,
    [profile] and [trace] are classes derived from the engine's profiler
    and line profiler, and both come from the same branch of the [try]
    statement as [marker]. *)
Theorem loaded_profilers_derive_from_engine
    (w : Load.world) (s : Load.module_state) :
  Load.run w = (Ok tt, s) ->
  exists o base,
    Load.names s !! "marker" = Some (Load.EClass o "marker" base)
    /\ Load.names s !! "profile" =
       Some (Load.EClass o "profile" (Some "timemory.profiler.profile"))
    /\ Load.names s !! "trace" =
       Some (Load.EClass o "trace" (Some "timemory.line_profiler.LineProfiler"))
    /\ Load.names s !! "_Prof" = Some (Load.EInstance o "marker").
Proof.
  intros Hr. rewrite run_unfold in Hr.
  destruct (Load.try_branch w after_metrics) as [[[]|e] s1] eqn:HT.
  - destruct (try_branch_names w) as (_ & _ & _ & B4 & B5 & B6 & _).
    destruct (B4 _ _ _ HT) as (x4 & H4 & <-).
    destruct (B5 _ _ _ HT) as (x5 & H5 & <-).
    destruct (B6 _ _ _ HT) as (x6 & H6 & <-).
    rewrite (module_tail_run _ _ _ _ H4) in Hr. injection Hr as <-.
    exists Load.Engine, (Some "timemory.util.marker"). simpl.
    rewrite !lookup_insert_ne by discriminate. rewrite lookup_insert_eq.
    done.
  - destruct (Load.except_branch e s1) as [[[]|e'] s2] eqn:HE; [|done].
    destruct (except_branch_names e) as (_ & _ & _ & B4 & B5 & B6 & _).
    destruct (B4 _ _ _ HE) as (x4 & H4 & <-).
    destruct (B5 _ _ _ HE) as (x5 & H5 & <-).
    destruct (B6 _ _ _ HE) as (x6 & H6 & <-).
    rewrite (module_tail_run _ _ _ _ H4) in Hr. injection Hr as <-.
    exists Load.Dummy, None. simpl.
    rewrite !lookup_insert_ne by discriminate. rewrite lookup_insert_eq.
    done.
Qed.

Lemma loaded_profilers_derive_from_engine_witness :
  exists o base,
    Load.names (Load.run Load.broken_components).2 !! "marker" =
      Some (Load.EClass o "marker" base)
    /\ Load.names (Load.run Load.broken_components).2 !! "profile" =
       Some (Load.EClass o "profile" (Some "timemory.profiler.profile"))
    /\ Load.names (Load.run Load.broken_components).2 !! "trace" =
       Some (Load.EClass o "trace" (Some "timemory.line_profiler.LineProfiler"))
    /\ Load.names (Load.run Load.broken_components).2 !! "_Prof" =
       Some (Load.EInstance o "marker").
Proof.
  apply (loaded_profilers_derive_from_engine Load.broken_components).
  by vm_compute.
Defined.
